(** * Subscription API: renewal bookkeeping, registration, login and the access guard

    A shallow embedding of the Mongoose schemas, the [pre("save")] hook of
    the subscription model, the request handlers and the access guard of the
    subscription tracker, with the properties its specification states about
    them.

    - [JsDate], [JsString]    the parts of ECMAScript's [Date] and [String]
                              the code uses, and the two regular expressions
    - [Validate]              how Mongoose runs the validators of a path
    - [User], [Subscription]  the two models
    - [Auth]                  [signup], [signin], [signout]
    - [Users]                 [authorize], [getUserProfile], [getSingleUser]
                              and the GET routes of [userRouter]
    - [Samples]               documents and requests the properties are run on

    The password hasher and the token library are collaborators, given as
    the classes [PasswordHasher] and [TokenService]. *)

From Stdlib Require Import ZArith List String Ascii Bool Lia.
Import ListNotations.

#[local] Open Scope string_scope.
#[local] Open Scope Z_scope.

(* ===================================================================== *)
(** ** ECMAScript dates *)
(* ===================================================================== *)

Module JsDate.

(** A [Date] object holds a time value: milliseconds since the epoch, or NaN
    (an "Invalid Date"), written [None]. *)
Record Date : Type := mkDate { valueOf : option Z }.

Definition NaN : Date := mkDate None.
Definition at_ms (t : Z) : Date := mkDate (Some t).

Definition msPerDay : Z := 86400000.

(** [Day(t) = floor(t / msPerDay)], [TimeWithinDay(t) = t modulo msPerDay]. *)
Definition Day (t : Z) : Z := t / msPerDay.
Definition TimeWithinDay (t : Z) : Z := t mod msPerDay.

Definition DaysInYear (y : Z) : Z :=
  if negb (y mod 4 =? 0) then 365
  else if negb (y mod 100 =? 0) then 366
  else if negb (y mod 400 =? 0) then 365
  else 366.

Definition DayFromYear (y : Z) : Z :=
  365 * (y - 1970) + (y - 1969) / 4 - (y - 1901) / 100 + (y - 1601) / 400.

Definition TimeFromYear (y : Z) : Z := msPerDay * DayFromYear y.

(** [YearFromTime(t)] is the largest [y] with [TimeFromYear(y) <= t]; it is
    computed from the mean length of a Gregorian year (146097 days in 400
    years) and corrected by at most one year ([YearFromTime_spec]). *)
Definition YearFromTime (t : Z) : Z :=
  let d := Day t in
  let y := 1970 + (400 * d) / 146097 in
  if d <? DayFromYear y then y - 1
  else if DayFromYear (y + 1) <=? d then y + 1
  else y.

Definition InLeapYear (t : Z) : Z :=
  if DaysInYear (YearFromTime t) =? 366 then 1 else 0.

Definition DayWithinYear (t : Z) : Z := Day t - DayFromYear (YearFromTime t).

(** Day number within the year on which month [m] (0 = January) starts. *)
Definition monthStart (leap m : Z) : Z :=
  match m with
  | 0 => 0
  | 1 => 31
  | 2 => 59 + leap
  | 3 => 90 + leap
  | 4 => 120 + leap
  | 5 => 151 + leap
  | 6 => 181 + leap
  | 7 => 212 + leap
  | 8 => 243 + leap
  | 9 => 273 + leap
  | 10 => 304 + leap
  | _ => 334 + leap
  end.

Definition MonthFromTime (t : Z) : Z :=
  let d := DayWithinYear t in
  let l := InLeapYear t in
  if d <? 31 then 0
  else if d <? 59 + l then 1
  else if d <? 90 + l then 2
  else if d <? 120 + l then 3
  else if d <? 151 + l then 4
  else if d <? 181 + l then 5
  else if d <? 212 + l then 6
  else if d <? 243 + l then 7
  else if d <? 273 + l then 8
  else if d <? 304 + l then 9
  else if d <? 334 + l then 10
  else 11.

Definition DateFromTime (t : Z) : Z :=
  DayWithinYear t - monthStart (InLeapYear t) (MonthFromTime t) + 1.

(** [MakeDay(year, month, date)]: the day number of the first of the month
    ([ym], [mn]) plus [date - 1]. *)
Definition MakeDay (year month date : Z) : Z :=
  let ym := year + month / 12 in
  let mn := month mod 12 in
  let leap := if DaysInYear ym =? 366 then 1 else 0 in
  DayFromYear ym + monthStart leap mn + date - 1.

Definition MakeDate (day time : Z) : Z := day * msPerDay + time.

(** [TimeClip]: a time value further than 8.64e15 ms from the epoch is NaN. *)
Definition maxTime : Z := 8640000000000000.

Definition TimeClip (t : Z) : option Z :=
  if Z.abs t <=? maxTime then Some t else None.

(** The host's time zone, as ECMAScript's [LocalTZA(t, isUTC)]: the offset
    of local time from UTC in milliseconds, in force at the time value [t],
    which is a UTC time value when [isUTC] is true and a local one
    otherwise.  The offset may change with [t] (daylight saving). *)
Definition Zone : Type := Z -> bool -> Z.

(** A zone whose offset never changes, and UTC. *)
Definition fixed (offset : Z) : Zone := fun _ _ => offset.
Definition utc : Zone := fixed 0.

Section LocalTime.

Variable LocalTZA : Zone.

(** [LocalTime(t) = t + LocalTZA(t, true)],
    [UTC(t) = t - LocalTZA(t, false)]. *)
Definition LocalTime (t : Z) : Z := t + LocalTZA t true.
Definition UTC (t : Z) : Z := t - LocalTZA t false.

(** [new Date(value)] for a [Date] or [undefined] argument. *)
Definition newDate (value : option Date) : Date :=
  match value with
  | Some d => mkDate (valueOf d)
  | None => NaN
  end.

(** [Date.prototype.getDate()]: a number, NaN as [None]. *)
Definition getDate (d : Date) : option Z :=
  match valueOf d with
  | Some t => Some (DateFromTime (LocalTime t))
  | None => None
  end.

Definition getMonth (d : Date) : option Z :=
  match valueOf d with
  | Some t => Some (MonthFromTime (LocalTime t))
  | None => None
  end.

Definition getFullYear (d : Date) : option Z :=
  match valueOf d with
  | Some t => Some (YearFromTime (LocalTime t))
  | None => None
  end.

(** [Date.prototype.setDate(date)]; the object is mutated, so the new object
    state is returned. *)
Definition setDate (d : Date) (date : option Z) : Date :=
  match valueOf d, date with
  | Some tv, Some dt =>
      let t := LocalTime tv in
      let newDate :=
        MakeDate (MakeDay (YearFromTime t) (MonthFromTime t) dt)
                 (TimeWithinDay t) in
      mkDate (TimeClip (UTC newDate))
  | _, _ => NaN
  end.

End LocalTime.

(** [a < b] on two [Date] objects compares their time values; a comparison
    with NaN is false. *)
Definition lt (a b : Date) : bool :=
  match valueOf a, valueOf b with
  | Some x, Some y => x <? y
  | _, _ => false
  end.

Definition gt (a b : Date) : bool := lt b a.

(** Day number of a civil date, for writing dates down: [civil y m d] is
    midnight UTC of year [y], month [m] (1 = January), day [d]. *)
Definition civil (y m d : Z) : Date :=
  at_ms (MakeDate (MakeDay y (m - 1) d) 0).

End JsDate.

(* ===================================================================== *)
(** ** ECMAScript strings and the schemas' regular expressions *)
(* ===================================================================== *)

Module JsString.

(** Strings are taken over ASCII; the white space and line terminators of
    ECMAScript that lie in that range. *)
Definition isLineTerminator (c : ascii) : bool :=
  let n := nat_of_ascii c in ((n =? 10) || (n =? 13))%nat.

Definition isWhiteSpace (c : ascii) : bool :=
  let n := nat_of_ascii c in
  ((n =? 9) || (n =? 10) || (n =? 11) || (n =? 12) || (n =? 13) || (n =? 32))%nat.

Definition isLower (c : ascii) : bool :=
  let n := nat_of_ascii c in ((97 <=? n) && (n <=? 122))%nat.

Definition isUpper (c : ascii) : bool :=
  let n := nat_of_ascii c in ((65 <=? n) && (n <=? 90))%nat.

Definition isDigit (c : ascii) : bool :=
  let n := nat_of_ascii c in ((48 <=? n) && (n <=? 57))%nat.

Definition isEmpty (s : string) : bool :=
  match s with EmptyString => true | String _ _ => false end.

Fixpoint trimStart (s : string) : string :=
  match s with
  | EmptyString => EmptyString
  | String c r => if isWhiteSpace c then trimStart r else s
  end.

Fixpoint trimEnd (s : string) : string :=
  match s with
  | EmptyString => EmptyString
  | String c r =>
      let r' := trimEnd r in
      if isWhiteSpace c && isEmpty r' then EmptyString else String c r'
  end.

Definition trim (s : string) : string := trimEnd (trimStart s).

Definition lowerChar (c : ascii) : ascii :=
  if isUpper c then ascii_of_nat (nat_of_ascii c + 32) else c.

Fixpoint toLowerCase (s : string) : string :=
  match s with
  | EmptyString => EmptyString
  | String c r => String (lowerChar c) (toLowerCase r)
  end.

Definition startsWith (s p : string) : bool := String.prefix p s.

(** [s.split(sep)] for a one-character separator. *)
Fixpoint split (sep : ascii) (s : string) : list string :=
  match s with
  | EmptyString => [EmptyString]
  | String c r =>
      if Ascii.eqb c sep then EmptyString :: split sep r
      else match split sep r with
           | w :: ws => String c w :: ws
           | [] => [String c EmptyString]
           end
  end.

Fixpoint forallb (p : ascii -> bool) (s : string) : bool :=
  match s with
  | EmptyString => true
  | String c r => p c && forallb p r
  end.

Definition len (s : string) : Z := Z.of_nat (String.length s).

(** *** [/^\S+@\S+\.\S+$/]  *)

(** [\S+] followed by the rest of the pattern [k]. *)
Fixpoint nonSpaces1 (k : string -> bool) (s : string) : bool :=
  match s with
  | EmptyString => false
  | String c r => negb (isWhiteSpace c) && (k r || nonSpaces1 k r)
  end.

Definition lit (c : ascii) (k : string -> bool) (s : string) : bool :=
  match s with
  | EmptyString => false
  | String c' r => Ascii.eqb c' c && k r
  end.

Definition emailRegex (s : string) : bool :=
  nonSpaces1 (lit "@" (nonSpaces1 (lit "." (nonSpaces1 isEmpty)))) s.

(** *** [/^(?=.*[a-z])(?=.*[A-Z])(?=.*\d)(?=.*[@$!%*?&])[A-Za-z\d@$!%*?&]{8,}$/] *)

Definition isSpecial (c : ascii) : bool :=
  existsb (Ascii.eqb c) ["@"; "$"; "!"; "%"; "*"; "?"; "&"]%char.

(** [[A-Za-z\d@$!%*?&]] *)
Definition inPasswordClass (c : ascii) : bool :=
  isUpper c || isLower c || isDigit c || isSpecial c.

(** The lookahead [(?=.*[p])]: some character in [p] after a run of
    characters that are not line terminators. *)
Fixpoint ahead (p : ascii -> bool) (s : string) : bool :=
  match s with
  | EmptyString => false
  | String c r => p c || (negb (isLineTerminator c) && ahead p r)
  end.

Definition passwordRegex (s : string) : bool :=
  ahead isLower s && ahead isUpper s && ahead isDigit s && ahead isSpecial s
  && forallb inPasswordClass s && (8 <=? len s).

End JsString.

(* ===================================================================== *)
(** ** Errors, response bodies and the error boundary *)
(* ===================================================================== *)

(** An ObjectId, as the string of 24 hexadecimal digits that stands for it in
    JSON, in a token's payload and in a route parameter. *)
Definition ObjectId : Type := string.

(** A status code that a response can be sent with: 100 to 999. *)
Record HttpStatus : Type := mkStatus {
  code : Z;
  code_ok : (100 <=? code) && (code <=? 999) = true
}.

(** The errors the handlers can meet, by the properties the error boundary
    inspects ([err.name], [err.code], [err.errors], [err.message],
    [err.statusCode]). *)
Inductive Error : Type :=
| ValidationError (errors : list (string * string))
    (* [name === "ValidationError"]; [errors]: path and message *)
| DuplicateKeyError                      (* [code === 11000] *)
| CastError (path value : string)        (* [name === "CastError"] *)
| ThrownError (message : string)
    (* any other [Error], without [statusCode] *)
| HttpError (status : HttpStatus) (message : string).
    (* any other [Error] that carries a [statusCode] of its own *)

(** A JSON value as sent by [res.json]; an object lists its own keys. *)
#[local] Unset Elimination Schemes.
Inductive Json : Type :=
| JStr (s : string)
| JBool (b : bool)
| JNum (n : Z)
| JId (i : ObjectId)
| JObj (fields : list (string * Json)).
#[local] Set Elimination Schemes.

Fixpoint assoc {A : Type} (k : string) (l : list (string * A)) : option A :=
  match l with
  | [] => None
  | (k', v) :: r => if String.eqb k k' then Some v else assoc k r
  end.

(** [body.key], [None] when the key is absent. *)
Definition field (k : string) (body : Json) : option Json :=
  match body with
  | JObj fields => assoc k fields
  | _ => None
  end.

Record Response : Type := mkResponse { statusCode : Z; json : Json }.

(** What a handler did with the request: answered it, called [next()],
    called [next(error)], or returned without doing any of these. *)
Inductive Reply (Req : Type) : Type :=
| Responded (r : Response)
| Next (req : Req)
| NextError (e : Error)
| NoReply.

Arguments Responded {Req} r.
Arguments Next {Req} req.
Arguments NextError {Req} e.
Arguments NoReply {Req}.

Fixpoint join (sep : string) (l : list string) : string :=
  match l with
  | [] => EmptyString
  | [x] => x
  | x :: r => x ++ sep ++ join sep r
  end.

(** [middlewares/error.middleware.js]: the status is 404, 400 and 400 for the
    three kinds it knows and otherwise [error.statusCode || 500], the
    error's own status code when it has one. *)
Definition errorMiddleware (err : Error) : Response :=
  let '(status, message) :=
    match err with
    | CastError path value =>
        (404, "Resource not found. Invalid: " ++ path ++ ": " ++ value)
    | DuplicateKeyError => (400, "Duplicate field value entered")
    | ValidationError errors => (400, join ", " (map snd errors))
    | ThrownError message => (500, message)
    | HttpError status message => (code status, message)
    end in
  mkResponse status
    (JObj [("success", JBool false);
           ("message",
            JStr (if JsString.isEmpty message then "Internal Server Error"
                  else message))]).

(* ===================================================================== *)
(** ** Schema validation *)
(* ===================================================================== *)

Module Validate.

(** The validators of one path run in order and the first that fails gives
    the path's error; a validator other than [required] passes on
    [undefined]. *)
Definition Validator (A : Type) : Type := (option A -> bool) * string.

Definition required {A : Type} (present : A -> bool) (msg : string)
  : Validator A :=
  (fun v => match v with Some x => present x | None => false end, msg).

Definition check {A : Type} (ok : A -> bool) (msg : string) : Validator A :=
  (fun v => match v with Some x => ok x | None => true end, msg).

Fixpoint firstFailure {A : Type} (vs : list (Validator A)) (v : option A)
  : option string :=
  match vs with
  | [] => None
  | (ok, msg) :: r => if ok v then firstFailure r v else Some msg
  end.

Definition path {A : Type} (name : string) (vs : list (Validator A))
  (v : option A) : list (string * string) :=
  match firstFailure vs v with
  | Some msg => [(name, msg)]
  | None => []
  end.

(** [required] on a String path also refuses the empty string. *)
Definition nonEmpty (s : string) : bool := negb (JsString.isEmpty s).
Definition always {A : Type} (_ : A) : bool := true.

Definition minlength (n : Z) (s : string) : bool := n <=? JsString.len s.
Definition maxlength (n : Z) (s : string) : bool := JsString.len s <=? n.

Definition enum (values : list string) (s : string) : bool :=
  existsb (String.eqb s) values.

Definition enumMessage (pathName : string) (v : option string) : string :=
  "`" ++ match v with Some s => s | None => EmptyString end
      ++ "` is not a valid enum value for path `" ++ pathName ++ "`.".

End Validate.

(* ===================================================================== *)
(** ** [models/user.model.js] *)
(* ===================================================================== *)

Module User.

(** A User document.  A path that was not given, or that a projection left
    out, is [None]. *)
Record t : Type := mk {
  _id : ObjectId;
  name : option string;
  email : option string;
  password : option string;
  createdAt : Z;
  updatedAt : Z
}.

(** The setters of the schema: [trim] on [name]; [lowercase] and [trim] on
    [email]. *)
Definition setName (v : option string) : option string :=
  option_map JsString.trim v.

Definition setEmail (v : option string) : option string :=
  option_map (fun s => JsString.trim (JsString.toLowerCase s)) v.

Definition validate (u : t) : list (string * string) :=
  (Validate.path "name"
    [Validate.required Validate.nonEmpty "username is required";
     Validate.check (Validate.minlength 3)
       "username must be at least 3 characters long";
     Validate.check (Validate.maxlength 20)
       "username must be less than 20 characters long"]
    (name u)
  ++ Validate.path "email"
    [Validate.required Validate.nonEmpty "email is required";
     Validate.check JsString.emailRegex "invalid email address"]
    (email u)
  ++ Validate.path "password"
    [Validate.required Validate.nonEmpty "password is required";
     Validate.check JsString.passwordRegex "invalid password"]
    (password u))%list.

(** [.select("-password")] *)
Definition selectMinusPassword (u : t) : t :=
  mk (_id u) (name u) (email u) None (createdAt u) (updatedAt u).

Definition opt (k : string) (v : option string) : list (string * Json) :=
  match v with
  | Some s => [(k, JStr s)]
  | None => []
  end.

(** The document as [res.json] serialises it: every path it holds. *)
Definition toJSON (u : t) : Json :=
  JObj ([("_id", JId (_id u))]
        ++ opt "name" (name u)
        ++ opt "email" (email u)
        ++ opt "password" (password u)
        ++ [("createdAt", JNum (createdAt u));
            ("updatedAt", JNum (updatedAt u));
            ("__v", JNum 0)])%list.

(** The collection, in insertion order. *)
Definition Collection : Type := list t.

Definition eqOpt (a b : option string) : bool :=
  match a, b with
  | Some x, Some y => String.eqb x y
  | None, None => true
  | _, _ => false
  end.

(** [User.findOne({ email })]: the query value goes through the path's
    setters; the first document that matches, or [null]. *)
Definition findOne (db : Collection) (queryEmail : option string) : option t :=
  find (fun u => eqOpt (email u) (setEmail queryEmail)) db.

Definition isHexDigit (c : ascii) : bool :=
  let n := nat_of_ascii c in
  (((48 <=? n) && (n <=? 57)) || ((97 <=? n) && (n <=? 102))
   || ((65 <=? n) && (n <=? 70)))%nat.

Definition isObjectId (s : string) : bool :=
  (String.length s =? 24)%nat && JsString.forallb isHexDigit s.

(** [User.findById(id)]: [undefined] finds nothing and a string that is no
    ObjectId is a [CastError]; the stored [_id]s are in canonical
    (lower-case) form. *)
Definition findById (db : Collection) (id : option string)
  : Error + option t :=
  match id with
  | None => inr None
  | Some s =>
      if isObjectId s
      then inr (find (fun u => String.eqb (_id u) (JsString.toLowerCase s)) db)
      else inl (CastError "_id" s)
  end.

(** [User.create([{ name, email, password }], { session })]: setters, then
    validation, then the insert, which the unique index on [email] can
    refuse. *)
Definition create (db : Collection) (id : ObjectId) (now : Z)
    (name email password : option string) : Error + (t * Collection) :=
  let doc := mk id (setName name) (setEmail email) password now now in
  match validate doc with
  | (_ :: _) as errors => inl (ValidationError errors)
  | [] =>
      if existsb (fun u => eqOpt (User.email u) (User.email doc)) db
      then inl DuplicateKeyError
      else inr (doc, (db ++ [doc])%list)
  end.

End User.

(* ===================================================================== *)
(** ** The subscription model *)
(* ===================================================================== *)

Module Subscription.

Import JsDate.

(** A Subscription document.  [renewalDate] is not a path of the schema: the
    hook reads and writes it as a property of the document object.  [price]
    is a Number of which only the comparison with 0 is used; it is taken as
    an integer amount. *)
Record t : Type := mk {
  name : option string;
  price : option Z;
  currency : option string;
  frequency : option string;
  category : option string;
  paymentMethod : option string;
  status : option string;
  startDate : option Date;
  endDate : option Date;
  user : option ObjectId;
  renewalDate : option Date
}.

Definition set_renewalDate (this : t) (d : Date) : t :=
  mk (name this) (price this) (currency this) (frequency this)
     (category this) (paymentMethod this) (status this) (startDate this)
     (endDate this) (user this) (Some d).

Definition set_status (this : t) (s : string) : t :=
  mk (name this) (price this) (currency this) (frequency this)
     (category this) (paymentMethod this) (Some s) (startDate this)
     (endDate this) (user this) (renewalDate this).

(** The distinct codes of the [currency] enum (the source repeats the last
    six many times over). *)
Definition currencies : list string :=
  ["USD"; "EUR"; "GBP"; "CAD"; "AUD"; "CHF"; "JPY"; "CNY"; "INR"; "BRL";
   "MXN"; "ARS"; "CLP"; "COP"; "PEN"; "NZD"; "HKD"; "SGD"; "THB"; "MYR";
   "PHP"; "IDR"; "VND"; "KRW"; "TRY"; "RUB"; "ZAR"; "SEK"; "NOK"; "DKK";
   "PLN"; "CZK"; "HUF"; "RON"; "BGN"; "HRK"; "ISK"; "JOD"; "KWD"; "QAR";
   "SAR"; "AED"; "BHD"; "OMR"].

Definition frequencies : list string := ["daily"; "weekly"; "monthly"; "yearly"].

Definition categories : list string :=
  ["food"; "entertainment"; "shopping"; "health"; "education"; "other"].

Definition statuses : list string := ["active"; "inactive"; "cancelled"].

(** [value < this.endDate] and [value > this.startDate]: a comparison with
    [undefined] is false. *)
Definition startDateValidator (this : t) (value : Date) : bool :=
  match endDate this with
  | Some e => lt value e
  | None => false
  end.

Definition endDateValidator (this : t) (value : Date) : bool :=
  match startDate this with
  | Some s => gt value s
  | None => false
  end.

Definition validate (this : t) : list (string * string) :=
  (Validate.path "name"
    [Validate.required Validate.nonEmpty "name is required";
     Validate.check (Validate.minlength 3)
       "name must be at least 3 characters long";
     Validate.check (Validate.maxlength 20)
       "name must be less than 20 characters long"]
    (name this)
  ++ Validate.path "price"
    [Validate.required Validate.always "price is required";
     Validate.check (fun v => 0 <=? v) "price must be greater than 0"]
    (price this)
  ++ Validate.path "currency"
    [Validate.required Validate.nonEmpty "currency is required";
     Validate.check (Validate.enum currencies)
       (Validate.enumMessage "currency" (currency this))]
    (currency this)
  ++ Validate.path "frequency"
    [Validate.required Validate.nonEmpty "frequency is required";
     Validate.check (Validate.enum frequencies)
       (Validate.enumMessage "frequency" (frequency this))]
    (frequency this)
  ++ Validate.path "category"
    [Validate.required Validate.nonEmpty "category is required";
     Validate.check (Validate.enum categories)
       (Validate.enumMessage "category" (category this))]
    (category this)
  ++ Validate.path "paymentMethod"
    [Validate.required Validate.nonEmpty "payment method is required"]
    (paymentMethod this)
  ++ Validate.path "status"
    [Validate.required Validate.nonEmpty "status is required";
     Validate.check (Validate.enum statuses)
       (Validate.enumMessage "status" (status this))]
    (status this)
  ++ Validate.path "startDate"
    [Validate.required Validate.always "start date is required";
     Validate.check (startDateValidator this)
       "start date must be before end date"]
    (startDate this)
  ++ Validate.path "endDate"
    [Validate.required Validate.always "end date is required";
     Validate.check (endDateValidator this)
       "end date must be after start date"]
    (endDate this)
  ++ Validate.path "user"
    [Validate.required Validate.always "user is required"]
    (user this))%list.

(** The table [renewalPeriod] and the lookup [renewalPeriod[key]]. *)
Definition renewalPeriod : list (string * Z) :=
  [("daily", 1); ("weekly", 7); ("monthly", 30); ("yearly", 365)].

Definition renewalPeriodAt (key : option string) : option Z :=
  match key with
  | Some k => assoc k renewalPeriod
  | None => None
  end.

(** [a + b] on numbers, NaN as [None]. *)
Definition plus (a b : option Z) : option Z :=
  match a, b with
  | Some x, Some y => Some (x + y)
  | _, _ => None
  end.

Section Hook.

Variable LocalTZA : Zone.

(** [subscriptionSchema.pre("save", function(next) { ... })].  [now] is the
    time value of [new Date()].  The result is the document after the hook
    and the number of times the hook called [next()]. *)
Definition preSave (now : Z) (this : t) : t * nat :=
  let '(this, calls) :=
    match renewalDate this with
    | None =>
        let d := newDate (startDate this) in
        let this := set_renewalDate this d in
        let d := setDate LocalTZA d
                   (plus (getDate LocalTZA d)
                         (renewalPeriodAt (frequency this))) in
        (set_renewalDate this d, 1%nat)
    | Some _ => (this, 0%nat)
    end in
  let this :=
    match renewalDate this with
    | Some r => if lt r (at_ms now) then set_status this "inactive" else this
    | None => this
    end in
  (this, S calls).

(** [doc.save()]: the schema's validation runs before the hook and rejects
    the save with a [ValidationError]; otherwise the hook runs on the
    document. *)
Definition save (now : Z) (this : t) : Error + t :=
  match validate this with
  | (_ :: _) as errors => inl (ValidationError errors)
  | [] => inr (fst (preSave now this))
  end.

End Hook.

End Subscription.

(* ===================================================================== *)
(** ** External collaborators *)
(* ===================================================================== *)

(** [bcryptjs]: [hash(plaintext, salt)] and [compare(plaintext, hash)] on
    strings. *)
Class PasswordHasher : Type := {
  bcrypt_hash : string -> string -> string;
  bcrypt_compare : string -> string -> bool
}.

(** [jsonwebtoken] with the configured secret and expiry:
    [sign({ userId }, JWT_SECRET, { expiresIn })] and
    [verify(token, JWT_SECRET)], which gives the payload's [userId] or
    throws. *)
Class TokenService : Type := {
  jwt_sign : ObjectId -> Error + string;
  jwt_verify : string -> Error + string
}.

(** What a handler did to its MongoDB session. *)
Inductive SessionOp : Type :=
| StartSession
| StartTransaction
| CommitTransaction
| AbortTransaction
| EndSession.

(** The error monad of a [try] block. *)
Definition bind {E A B : Type} (c : E + A) (k : A -> E + B) : E + B :=
  match c with
  | inl e => inl e
  | inr a => k a
  end.

Declare Scope try_scope.
Delimit Scope try_scope with try.
Notation "x <- c ;; k" := (bind c (fun x => k))
  (at level 61, c at next level, right associativity) : try_scope.
Notation "' p <- c ;; k" := (bind c (fun x => let p := x in k))
  (at level 61, p pattern, c at next level, right associativity) : try_scope.

(* ===================================================================== *)
(** ** [controllers/auth.controller.js] *)
(* ===================================================================== *)

Module Auth.

Section Handlers.

Context {hasher : PasswordHasher} {tokens : TokenService}.

(** [req.body] of the two routes, for bodies whose [name], [email] and
    [password] are strings or missing (a missing key is [None]); other JSON
    values in these keys (numbers, objects) are outside the model. *)
Record Body : Type := mkBody {
  name : option string;
  email : option string;
  password : option string
}.

(** The outcome of a handler: the collection, the session operations in
    order, and what became of the request. *)
Record Result : Type := mkResult {
  db : User.Collection;
  session : list SessionOp;
  reply : Reply unit
}.

Definition illegalArguments (a b : string) : Error :=
  ThrownError ("Illegal arguments: " ++ a ++ ", " ++ b).

(** [await bcrypt.hash(password, salt)] *)
Definition hash (password : option string) (salt : string) : Error + string :=
  match password with
  | Some p => inr (bcrypt_hash p salt)
  | None => inl (illegalArguments "undefined" "string")
  end.

(** [await bcrypt.compare(password, hash)] *)
Definition compare (password stored : option string) : Error + bool :=
  match password, stored with
  | Some p, Some h => inr (bcrypt_compare p h)
  | None, Some _ => inl (illegalArguments "undefined" "string")
  | Some _, None => inl (illegalArguments "string" "undefined")
  | None, None => inl (illegalArguments "undefined" "undefined")
  end.

Definition message (m : string) : Json := JObj [("message", JStr m)].

(** [signup].  [salt] is what [bcrypt.genSalt(10)] returned, [newId] the
    identifier given to the new document and [now] the time of the insert.
    The [try] block gives the collection as the open transaction sees it,
    the session operations it performed and the reply. *)
Definition signup (salt : string) (newId : ObjectId) (now : Z)
    (body : Body) (db : User.Collection) : Result :=
  let attempt : Error + (User.Collection * list SessionOp * Reply unit) :=
    (match User.findOne db (email body) with
     | Some existingUser =>
         inr (db, [],
              Responded (mkResponse 400 (message "User already exists")))
     | None =>
         hashedPassword <- hash (password body) salt ;;
         ' (newUser, db') <-
           User.create db newId now (name body) (email body)
                       (Some hashedPassword) ;;
         token <- jwt_sign (User._id newUser) ;;
         inr (db', [CommitTransaction; EndSession],
              Responded (mkResponse 201
                (JObj [("message", JStr "User created successfully");
                       ("user", User.toJSON newUser);
                       ("token", JStr token);
                       ("success", JBool true)])))
     end)%try in
  match attempt with
  | inr (db', ops, r) =>
      mkResult db' ([StartSession; StartTransaction] ++ ops)%list r
  | inl error =>
      mkResult db
        [StartSession; StartTransaction; AbortTransaction; EndSession]
        (NextError error)
  end.

(** [signin] *)
Definition signin (body : Body) (db : User.Collection) : Result :=
  let attempt : Error + Reply unit :=
    (match User.findOne db (email body) with
     | None => inr (Responded (mkResponse 400 (message "User not found")))
     | Some user =>
         isPasswordCorrect <- compare (password body) (User.password user) ;;
         if negb isPasswordCorrect
         then inr (Responded (mkResponse 400 (message "Invalid password")))
         else
           token <- jwt_sign (User._id user) ;;
           inr (Responded (mkResponse 200
                  (JObj [("message", JStr "User signed in successfully");
                         ("data",
                          JObj [("user", User.toJSON user);
                                ("token", JStr token);
                                ("success", JBool true)])])))
     end)%try in
  match attempt with
  | inr r => mkResult db [StartSession; StartTransaction] r
  | inl error =>
      mkResult db [StartSession; StartTransaction; AbortTransaction] NoReply
  end.

(** [signout]: the body is empty. *)
Definition signout (db : User.Collection) : Result := mkResult db [] NoReply.

End Handlers.

End Auth.

(* ===================================================================== *)
(** ** [middlewares/auth.middleware.js], [controllers/user.controller.js]
       and [routes/user.routes.js] *)
(* ===================================================================== *)

Module Users.

Section Handlers.

Context {tokens : TokenService}.

(** The parts of [req] the handlers read: the [Authorization] header, the
    route parameter [id], and [req.user]. *)
Record Request : Type := mkRequest {
  authorization : option string;
  params_id : option string;
  user : option User.t
}.

Definition set_user (req : Request) (u : User.t) : Request :=
  mkRequest (authorization req) (params_id req) (Some u).

Definition message (m : string) : Json := JObj [("message", JStr m)].

Definition unauthorized : Reply Request :=
  Responded (mkResponse 401 (message "Unauthorized")).

(** A handler's [try { ... } catch (error) { next(error) }]. *)
Definition catchNext (attempt : Error + Reply Request) : Reply Request :=
  match attempt with
  | inr r => r
  | inl error => NextError error
  end.

(** The token the guard extracts; [None] when [token] stays [undefined]. *)
Definition bearerToken (req : Request) : option string :=
  match authorization req with
  | Some a =>
      if Validate.nonEmpty a && JsString.startsWith a "Bearer"
      then nth_error (JsString.split " "%char a) 1
      else None
  | None => None
  end.

(** [authorize] *)
Definition authorize (db : User.Collection) (req : Request) : Reply Request :=
  catchNext
    (match bearerToken req with
     | None | Some EmptyString => inr unauthorized
     | Some token =>
         userId <- jwt_verify token ;;
         found <- User.findById db (Some userId) ;;
         match option_map User.selectMinusPassword found with
         | None => inr unauthorized
         | Some user => inr (Next (set_user req user))
         end
     end)%try.

(** [getUserProfile]; [req.user.id] is the string of [req.user._id]. *)
Definition getUserProfile (db : User.Collection) (req : Request)
  : Reply Request :=
  catchNext
    (match user req with
     | Some u =>
         if Validate.nonEmpty (User._id u) then
           found <- User.findById db (Some (User._id u)) ;;
           match found with
           | None =>
               inr (Responded (mkResponse 404
                      (JObj [("message", JStr "User not found");
                             ("success", JBool false)])))
           | Some user =>
               inr (Responded (mkResponse 200
                      (JObj [("message",
                              JStr "User profile fetched successfully");
                             ("data",
                              JObj [("user", User.toJSON user);
                                    ("success", JBool true)])])))
           end
         else
           inr (Responded (mkResponse 401
                  (JObj [("message",
                          JStr "Authentication required. Please login first.");
                         ("success", JBool false)])))
     | None =>
         inr (Responded (mkResponse 401
                (JObj [("message",
                        JStr "Authentication required. Please login first.");
                       ("success", JBool false)])))
     end)%try.

(** [getSingleUser] *)
Definition getSingleUser (db : User.Collection) (req : Request)
  : Reply Request :=
  catchNext
    (found <- User.findById db (params_id req) ;;
     match option_map User.selectMinusPassword found with
     | None =>
         inr (Responded (mkResponse 404
                (JObj [("message", JStr "User not found");
                       ("success", JBool false)])))
     | Some user =>
         inr (Responded (mkResponse 200
                (JObj [("message", JStr "User fetched successfully");
                       ("data",
                        JObj [("user", User.toJSON user);
                              ("success", JBool true)])])))
     end)%try.

(** The routes of [userRouter] that answer a GET, each with its handlers in
    the order they are mounted. *)
Inductive Route : Type :=
| GetRoot        (* [userRouter.get("/", getUserProfile)] *)
| GetById.       (* [userRouter.get("/:id", authorize, getSingleUser)] *)

Definition Handler : Type := User.Collection -> Request -> Reply Request.

Definition userRouter (r : Route) : list Handler :=
  match r with
  | GetRoot => [getUserProfile]
  | GetById => [authorize; getSingleUser]
  end.

(** Express runs the handlers of a route in order for as long as each calls
    [next()]; a [next()] from the last one leaves the router. *)
Fixpoint run (handlers : list Handler) (db : User.Collection) (req : Request)
  : Reply Request :=
  match handlers with
  | [] => Next req
  | h :: rest =>
      match h db req with
      | Next req' => run rest db req'
      | r => r
      end
  end.

Definition handle (r : Route) (db : User.Collection) (req : Request)
  : Reply Request :=
  run (userRouter r) db req.

End Handlers.

End Users.

(* ===================================================================== *)
(** ** Sample data *)
(* ===================================================================== *)

Module Samples.

Import JsDate.

(** The example of the specification: a monthly subscription that starts on
    2024-01-15. *)
Definition scenarioD : Subscription.t :=
  Subscription.mk (Some "Netflix") (Some 15) (Some "USD") (Some "monthly")
     (Some "entertainment") (Some "card") (Some "active")
     (Some (civil 2024 1 15)) (Some (civil 2025 1 15))
     (Some "64f8a1b2c3d4e5f6a7b8c9d0") None.

(** A subscription whose renewal date has passed and whose caller asks for
    "active". *)
Definition lapsed : Subscription.t :=
  Subscription.mk (Some "Netflix") (Some 15) (Some "USD") (Some "monthly")
     (Some "entertainment") (Some "card") (Some "active")
     (Some (civil 2024 1 15)) (Some (civil 2025 1 15))
     (Some "64f8a1b2c3d4e5f6a7b8c9d0") (Some (civil 2024 2 14)).

(** A candidate that ends the day it starts. *)
Definition sameDay : Subscription.t :=
  Subscription.mk (Some "Netflix") (Some 15) (Some "USD") (Some "monthly")
     (Some "entertainment") (Some "card") (Some "active")
     (Some (civil 2024 1 15)) (Some (civil 2024 1 15))
     (Some "64f8a1b2c3d4e5f6a7b8c9d0") None.

(** A password hasher of bcrypt's shape: the 29 characters of the salt
    followed by 31 characters that stand for the digest of the plaintext. *)
Definition digests : list (string * string) :=
  [("Password1!", "SUl7MU/rWuSiIDDFayrKk/1tBsSQu4u");
   ("password123", "xpsjN0c7II7YPKXua2NAKYvM6iQk7dq")].

Definition digest (plain : string) : string :=
  match assoc plain digests with
  | Some d => d
  | None => "0000000000000000000000000000000"
  end.

#[local] Instance hasher : PasswordHasher := {|
  bcrypt_hash := fun plain salt => salt ++ digest plain;
  bcrypt_compare := fun plain stored =>
    String.eqb (String.substring 0 29 stored ++ digest plain) stored
|}.

(** A token service whose token for a user is "jwt." followed by the
    identifier, and whose verification refuses anything else. *)
#[local] Instance tokens : TokenService := {|
  jwt_sign := fun id => inr ("jwt." ++ id);
  jwt_verify := fun token =>
    if String.prefix "jwt." token
    then inr (String.substring 4 (String.length token - 4) token)
    else inl (ThrownError "jwt malformed")
|}.

(** Two salts as [bcrypt.genSalt(10)] gives them. *)
Definition saltPlain : string := "$2a$10$fVH8e28OQRj9tqiDXs1e1u".
Definition saltDotted : string := "$2a$10$k87L/MF28Q673VKh8/cPi.".

Definition aliceId : ObjectId := "64f8a1b2c3d4e5f6a7b8c9d0".
Definition bobId : ObjectId := "64f8a1b2c3d4e5f6a7b8c9d1".

Definition alice : User.t :=
  User.mk aliceId (Some "Test User") (Some "test@example.com")
    (Some (saltPlain ++ digest "password123"))
    1704067200000 1704067200000.

(** The request bodies of the specification's scenario A, of a registration
    with a password that meets the rule, and of a login without password. *)
Definition scenarioA : Auth.Body :=
  Auth.mkBody (Some "Test User") (Some "test@example.com")
    (Some "password123").

Definition strongPassword : Auth.Body :=
  Auth.mkBody (Some "Test User") (Some "test@example.com")
    (Some "Password1!").

Definition noPassword : Auth.Body :=
  Auth.mkBody None (Some "test@example.com") None.

(** Requests to the user routes: without header, with another scheme, with
    a token that does not verify, with the token of a user that is gone and
    with the token of [alice]. *)
Definition bare : Users.Request := Users.mkRequest None None None.

Definition basic : Users.Request :=
  Users.mkRequest (Some "Basic dGVzdDp0ZXN0") None None.

Definition garbage : Users.Request :=
  Users.mkRequest (Some "Bearer garbage") None None.

Definition gone : Users.Request :=
  Users.mkRequest (Some ("Bearer jwt." ++ bobId)) None None.

Definition withToken : Users.Request :=
  Users.mkRequest (Some ("Bearer jwt." ++ aliceId)) None None.

End Samples.

(* ===================================================================== *)
(** ** Predicates the properties are stated with *)
(* ===================================================================== *)

Module Spec.

(** The characters of a string. *)
Definition chars (s : string) : list ascii := list_ascii_of_string s.

(** No white space in the string. *)
Definition noSpace (s : string) : Prop :=
  forall c, In c (chars s) -> JsString.isWhiteSpace c = false.

(** Some character of the string is in the class [p]. *)
Definition has (p : ascii -> bool) (s : string) : Prop :=
  exists c, In c (chars s) /\ p c = true.

(** No blank (U+0020) in the string. *)
Definition noBlank (s : string) : Prop :=
  forall c, In c (chars s) -> c <> " "%char.

(** The document a registration builds from the request and the plaintext
    of its password. *)
Definition newDoc {hasher : PasswordHasher} (salt : string) (newId : ObjectId)
    (now : Z) (body : Auth.Body) (plain : string) : User.t :=
  User.mk newId (User.setName (Auth.name body))
    (User.setEmail (Auth.email body))
    (Some (bcrypt_hash plain salt)) now now.

End Spec.

(* ===================================================================== *)
(** ** More sample data *)
(* ===================================================================== *)

Module Samples2.

Import JsDate.

(** A document with a frequency that is not a key of the table. *)
Definition fortnightly : Subscription.t :=
  Subscription.mk (Some "Netflix") (Some 15) (Some "USD") (Some "fortnightly")
     (Some "entertainment") (Some "card") (Some "active")
     (Some (civil 2024 1 15)) (Some (civil 2025 1 15))
     (Some "64f8a1b2c3d4e5f6a7b8c9d0") None.

(** New York in 2024: five hours behind UTC, four from 10 March 07:00 UTC
    to 3 November 06:00 UTC; a local time is read with the offset in force
    before a transition when the transition skips or repeats it. *)
Definition newYork : Zone := fun t isUTC =>
  if isUTC
  then if (1710054000000 <=? t) && (t <? 1730613600000)
       then -14400000 else -18000000
  else if (1710039600000 <=? t) && (t <? 1730599200000)
       then -14400000 else -18000000.

(** A monthly subscription that starts on 2024-02-15 00:00 UTC, which is
    19:00 on 14 February in New York. *)
Definition winterStart : Subscription.t :=
  Subscription.mk (Some "Netflix") (Some 15) (Some "USD") (Some "monthly")
     (Some "entertainment") (Some "card") (Some "active")
     (Some (at_ms 1707955200000)) (Some (civil 2025 1 15))
     (Some "64f8a1b2c3d4e5f6a7b8c9d0") None.

(** A token service without secret: signing and verifying throw. *)
Definition noSecret : TokenService := {|
  jwt_sign := fun _ => inl (ThrownError "secretOrPrivateKey must have a value");
  jwt_verify := fun _ => inl (ThrownError "secret or public key must be provided")
|}.

(** Request bodies: the email of scenario A in another letter case and with
    surrounding blanks, a second user, and a login with a wrong password. *)
Definition sameEmail : Auth.Body :=
  Auth.mkBody (Some "Someone Else") (Some "  TEST@Example.com ")
    (Some "password123").

Definition bob : Auth.Body :=
  Auth.mkBody (Some "Bob Stone") (Some "bob@example.com")
    (Some "password123").

Definition wrongPassword : Auth.Body :=
  Auth.mkBody None (Some "test@example.com") (Some "Password1!").

(** Requests to [GET /:id]: for [alice], for an identifier that is no
    ObjectId, and one whose header has more than the scheme and the token. *)
Definition forAlice : Users.Request :=
  Users.mkRequest (Some ("Bearer jwt." ++ Samples.aliceId))
    (Some Samples.aliceId) None.

Definition forNobody : Users.Request :=
  Users.mkRequest (Some ("Bearer jwt." ++ Samples.aliceId)) (Some "42") None.

Definition padded : Users.Request :=
  Users.mkRequest (Some "BearerXYZ abc.def trailing words") None None.

End Samples2.

(* ===================================================================== *)
(** * Properties *)
(* ===================================================================== *)

(** ** Dates *)

Module JsDateFacts.

Import JsDate.

(** [YearFromTime] is the year whose first day is the last one not after
    [t]. *)
Lemma YearFromTime_spec (t : Z) :
  DayFromYear (YearFromTime t) <= Day t < DayFromYear (YearFromTime t + 1).
Proof.
  unfold YearFromTime. set (d := Day t). clearbody d. cbv zeta.
  assert (Hq : 146097 * (400 * d / 146097) <= 400 * d
               < 146097 * (400 * d / 146097) + 146097).
  { pose proof (Z.div_mod (400 * d) 146097 ltac:(lia)).
    pose proof (Z.mod_pos_bound (400 * d) 146097 ltac:(lia)). lia. }
  set (q := 400 * d / 146097) in *. clearbody q.
  destruct (Z.ltb_spec d (DayFromYear (1970 + q))) as [Hlt | Hge].
  - replace (1970 + q - 1 + 1) with (1970 + q) by lia.
    split; [| exact Hlt].
    unfold DayFromYear in *. Z.div_mod_to_equations. lia.
  - destruct (Z.leb_spec (DayFromYear (1970 + q + 1)) d) as [Hle | Hgt].
    + split; [exact Hle |].
      unfold DayFromYear in *. Z.div_mod_to_equations. lia.
    + split; assumption.
Qed.

Lemma DayFromYear_succ (y : Z) :
  DayFromYear (y + 1) = DayFromYear y + DaysInYear y.
Proof.
  unfold DayFromYear, DaysInYear.
  destruct (Z.eqb_spec (y mod 4) 0); cbn [negb];
    [ destruct (Z.eqb_spec (y mod 100) 0); cbn [negb];
      [ destruct (Z.eqb_spec (y mod 400) 0); cbn [negb] | ] | ];
    Z.div_mod_to_equations; lia.
Qed.

(** The day within the year is a day of that year. *)
Lemma DayWithinYear_range (t : Z) :
  0 <= DayWithinYear t < DaysInYear (YearFromTime t).
Proof.
  unfold DayWithinYear.
  pose proof (YearFromTime_spec t) as H.
  rewrite DayFromYear_succ in H. lia.
Qed.

Lemma MonthFromTime_range (t : Z) : 0 <= MonthFromTime t < 12.
Proof.
  unfold MonthFromTime. cbv zeta.
  repeat match goal with
         | |- context [if ?b then _ else _] => destruct b
         end; lia.
Qed.

(** The day of the month lies within the month. *)
Lemma DateFromTime_range (t : Z) : 1 <= DateFromTime t <= 31.
Proof.
  pose proof (DayWithinYear_range t) as Hd.
  unfold DateFromTime, MonthFromTime, InLeapYear in *. cbv zeta.
  destruct (Z.eqb_spec (DaysInYear (YearFromTime t)) 366) as [E | E].
  - rewrite E in Hd.
    repeat match goal with
           | |- context [if ?a <? ?b then _ else _] =>
               destruct (Z.ltb_spec a b)
           end; cbn [monthStart]; lia.
  - assert (DaysInYear (YearFromTime t) = 365) as E'.
    { revert E. unfold DaysInYear.
      repeat match goal with
             | |- context [if ?b then _ else _] => destruct b
             end; lia. }
    rewrite E' in Hd.
    repeat match goal with
           | |- context [if ?a <? ?b then _ else _] =>
               destruct (Z.ltb_spec a b)
           end; cbn [monthStart]; lia.
Qed.

(** Rebuilding the day from the year, the month and a day of the month
    counted from the current one moves the day number by the difference. *)
Lemma MakeDay_shift (t n : Z) :
  MakeDay (YearFromTime t) (MonthFromTime t) (DateFromTime t + n) = Day t + n.
Proof.
  pose proof (MonthFromTime_range t) as Hm.
  unfold MakeDay. cbv zeta.
  rewrite (Z.div_small (MonthFromTime t) 12) by lia.
  rewrite (Z.mod_small (MonthFromTime t) 12) by lia.
  rewrite Z.add_0_r.
  unfold DateFromTime, InLeapYear, DayWithinYear. lia.
Qed.

Lemma Day_TimeWithinDay (t : Z) : Day t * msPerDay + TimeWithinDay t = t.
Proof.
  unfold Day, TimeWithinDay.
  pose proof (Z.div_mod t msPerDay ltac:(unfold msPerDay; lia)). lia.
Qed.

(** [d.setDate(d.getDate() + n)] moves a valid date by [n] days on the
    local clock: the local time value grows by [n] days and is read back as
    UTC with the offset in force there. *)
Lemma setDate_getDate_plus (tz : Zone) (t n : Z) :
  setDate tz (at_ms t) (Subscription.plus (getDate tz (at_ms t)) (Some n))
  = mkDate (TimeClip (UTC tz (LocalTime tz t + n * msPerDay))).
Proof.
  unfold setDate, getDate, Subscription.plus. cbn [valueOf at_ms]. cbv zeta.
  rewrite MakeDay_shift. unfold MakeDate.
  pose proof (Day_TimeWithinDay (LocalTime tz t)) as H.
  do 3 f_equal. lia.
Qed.

(** Where the offset is the same at both ends, that is [n] times 24 hours
    later. *)
Lemma UTC_LocalTime_plus (tz : Zone) (t d : Z) :
  tz (LocalTime tz t + d) false = tz t true ->
  UTC tz (LocalTime tz t + d) = t + d.
Proof.
  intros H. unfold UTC. rewrite H. unfold LocalTime. lia.
Qed.

Lemma TimeClip_in_range (t : Z) :
  - maxTime <= t <= maxTime -> TimeClip t = Some t.
Proof.
  intros H. unfold TimeClip.
  destruct (Z.leb_spec (Z.abs t) maxTime); [reflexivity | lia].
Qed.

End JsDateFacts.

(** ** The model on concrete values *)

Module ModelChecks.

Import JsDate JsString Samples.

#[local] Existing Instance Samples.hasher.

Example civil_epoch : civil 1970 1 1 = at_ms 0.
Proof. reflexivity. Qed.

Example civil_2024_01_15 : civil 2024 1 15 = at_ms 1705276800000.
Proof. vm_compute; reflexivity. Qed.

Example fields_2024_02_29 :
  let d := civil 2024 2 29 in
  (getFullYear utc d, getMonth utc d, getDate utc d) = (Some 2024, Some 1, Some 29).
Proof. vm_compute; reflexivity. Qed.

Example fields_1969_12_31 :
  let d := civil 1969 12 31 in
  (getFullYear utc d, getMonth utc d, getDate utc d) = (Some 1969, Some 11, Some 31).
Proof. vm_compute; reflexivity. Qed.

(** One hour ahead of UTC, 23:30 UTC is already the next day. *)
Example getDate_local :
  getDate (fixed 3600000) (at_ms (1705276800000 + 23 * 3600000 + 1800000)) = Some 16.
Proof. vm_compute; reflexivity. Qed.

(** [setDate] runs over the end of the month and of the year. *)
Example setDate_over_month : setDate utc (civil 2024 1 31) (Some 32) = civil 2024 2 1.
Proof. vm_compute; reflexivity. Qed.

Example setDate_over_year :
  setDate utc (civil 2023 12 15) (Some (15 + 365)) = civil 2024 12 14.
Proof. vm_compute; reflexivity. Qed.

Example setDate_NaN : setDate utc (civil 2024 1 15) None = NaN.
Proof. reflexivity. Qed.

Example setDate_clipped :
  setDate utc (at_ms maxTime) (Some 14) = NaN.
Proof. vm_compute; reflexivity. Qed.

Example trim_both : trim "  Netflix Premium " = "Netflix Premium".
Proof. reflexivity. Qed.

Example lower_email : toLowerCase "Test@Example.COM" = "test@example.com".
Proof. reflexivity. Qed.

Example split_bearer : split " " "Bearer abc.def" = ["Bearer"; "abc.def"].
Proof. reflexivity. Qed.

Example split_no_token : split " " "Bearer" = ["Bearer"].
Proof. reflexivity. Qed.

Example email_ok : emailRegex "test@example.com" = true.
Proof. reflexivity. Qed.

Example email_no_dot : emailRegex "test@example" = false.
Proof. reflexivity. Qed.

Example email_space : emailRegex "te st@example.com" = false.
Proof. reflexivity. Qed.

Example password_rule_ok : passwordRegex "Password1!" = true.
Proof. reflexivity. Qed.

Example password_rule_scenarioA : passwordRegex "password123" = false.
Proof. reflexivity. Qed.

Example password_rule_short : passwordRegex "Pa1!" = false.
Proof. reflexivity. Qed.

Example hash_with_slash :
  passwordRegex (bcrypt_hash "Password1!" saltDotted) = false.
Proof. reflexivity. Qed.

Example hash_without :
  passwordRegex (bcrypt_hash "password123" saltPlain) = true.
Proof. reflexivity. Qed.

Example scenarioD_valid : Subscription.validate scenarioD = [].
Proof. vm_compute; reflexivity. Qed.

Example scenarioD_saved :
  Subscription.save utc 1704067200000 scenarioD
  = inr (Subscription.set_renewalDate scenarioD (civil 2024 2 14)).
Proof. vm_compute; reflexivity. Qed.

Example boundary_validation :
  errorMiddleware
    (ValidationError [("name", "username is required");
                      ("password", "invalid password")])
  = mkResponse 400
      (JObj [("success", JBool false);
             ("message", JStr "username is required, invalid password")]).
Proof. reflexivity. Qed.

(** Across the start of daylight saving in New York, 30 days on the local
    clock are 30 times 24 hours less one hour; across its end, 30 days are
    one hour more. *)
Example setDate_newYork_spring :
  setDate Samples2.newYork (at_ms 1707955200000)
    (Subscription.plus (getDate Samples2.newYork (at_ms 1707955200000))
                       (Some 30))
  = at_ms 1710543600000.
Proof. vm_compute; reflexivity. Qed.

Example setDate_newYork_autumn :
  setDate Samples2.newYork (at_ms 1729555200000)
    (Subscription.plus (getDate Samples2.newYork (at_ms 1729555200000))
                       (Some 30))
  = at_ms (1729555200000 + 30 * msPerDay + 3600000).
Proof. vm_compute; reflexivity. Qed.

(** An error with a status code of its own is answered with it. *)
Example boundary_own_status :
  errorMiddleware (HttpError (mkStatus 418 eq_refl) "teapot")
  = mkResponse 418
      (JObj [("success", JBool false); ("message", JStr "teapot")]).
Proof. reflexivity. Qed.

Example boundary_cast :
  errorMiddleware (CastError "_id" "42")
  = mkResponse 404
      (JObj [("success", JBool false);
             ("message", JStr "Resource not found. Invalid: _id: 42")]).
Proof. reflexivity. Qed.

End ModelChecks.

(** ** The subscription hook and validators *)

Module SubscriptionFacts.

Import JsDate Subscription Samples.

(** The renewal date the hook leaves on the document: the one it found, or
    the one it derives. *)
Lemma preSave_renewalDate (tz : Zone) (now : Z) (this : t) :
  renewalDate (fst (preSave tz now this)) =
  match renewalDate this with
  | Some d => Some d
  | None =>
      Some (setDate tz (newDate (startDate this))
              (plus (getDate tz (newDate (startDate this)))
                    (renewalPeriodAt (frequency this))))
  end.
Proof.
  unfold preSave.
  destruct (renewalDate this) as [d |] eqn:E.
  - rewrite E. destruct (lt d (at_ms now)); cbn; try rewrite E; reflexivity.
  - cbn [set_renewalDate renewalDate frequency].
    match goal with
    | |- context [if ?b then _ else _] => destruct b
    end; reflexivity.
Qed.

(** The status the hook leaves on the document. *)
Lemma preSave_status (tz : Zone) (now : Z) (this : t) :
  status (fst (preSave tz now this)) =
  match renewalDate (fst (preSave tz now this)) with
  | Some r => if lt r (at_ms now) then Some "inactive" else status this
  | None => status this
  end.
Proof.
  unfold preSave.
  destruct (renewalDate this) as [d |] eqn:E.
  - rewrite E. destruct (lt d (at_ms now)) eqn:L; cbn; rewrite E, ?L; reflexivity.
  - cbn [set_renewalDate renewalDate frequency].
    match goal with
    | |- context [if lt ?r ?n then _ else _] => destruct (lt r n) eqn:L
    end; cbn; rewrite ?L; reflexivity.
Qed.

Lemma preSave_unset (tz : Zone) (now t0 n : Z) (this : t) :
  renewalDate this = None ->
  startDate this = Some (at_ms t0) ->
  renewalPeriodAt (frequency this) = Some n ->
  renewalDate (fst (preSave tz now this))
  = Some (mkDate (TimeClip (UTC tz (LocalTime tz t0 + n * msPerDay)))).
Proof.
  intros Hr Hs Hf.
  rewrite preSave_renewalDate, Hr, Hs, Hf.
  cbn [newDate valueOf at_ms].
  f_equal. apply (JsDateFacts.setDate_getDate_plus tz t0 n).
Qed.



(** C2: whenever the renewal date the hook works with, derived in this pass
    or found on the document, is strictly earlier than the current time, the
    hook sets the status to "inactive" whatever it was; this holds for a
    document that went through the hook before; and a renewal date that is
    not earlier leaves the status alone. *)
Theorem status_forced_inactive (tz : Zone) (now r : Z) (this : t) (d : Date) :
  renewalDate (fst (preSave tz now this)) = Some d ->
  valueOf d = Some r ->
  (r < now -> status (fst (preSave tz now this)) = Some "inactive")
  /\ (r < now ->
      forall (earlier : Z) (requested : string),
        status (fst (preSave tz now
                  (set_status (fst (preSave tz earlier this)) requested)))
        = Some "inactive")
  /\ (now <= r -> status (fst (preSave tz now this)) = status this).
Proof.
  intros Hd Hv.
  assert (Hlt : r < now -> lt d (at_ms now) = true).
  { intros H. unfold lt. rewrite Hv. cbn. apply Z.ltb_lt, H. }
  split; [| split].
  - intros H. rewrite preSave_status, Hd, (Hlt H). reflexivity.
  - intros H earlier requested.
    rewrite preSave_status.
    assert (Hsame : renewalDate (fst (preSave tz now
                      (set_status (fst (preSave tz earlier this)) requested)))
                    = Some d).
    { rewrite preSave_renewalDate. cbn [set_status renewalDate].
      rewrite preSave_renewalDate in Hd |- *.
      destruct (renewalDate this); exact Hd. }
    rewrite Hsame, (Hlt H). reflexivity.
  - intros H. rewrite preSave_status, Hd.
    unfold lt. rewrite Hv. cbn.
    destruct (Z.ltb_spec r now); [lia | reflexivity].
Qed.

Lemma status_forced_inactive_witness :
  status (fst (preSave utc 1710000000000 lapsed)) = Some "inactive"
  /\ status (fst (preSave utc 1710000000000 scenarioD)) = Some "inactive"
  /\ status (fst (preSave utc 1700000000000 lapsed)) = Some "active".
Proof.
  split; [| split].
  - destruct (status_forced_inactive utc 1710000000000 1707868800000 lapsed
                (civil 2024 2 14)) as (H & _ & _);
      [vm_compute; reflexivity | vm_compute; reflexivity |].
    apply H. lia.
  - destruct (status_forced_inactive utc 1710000000000 1707868800000 scenarioD
                (civil 2024 2 14)) as (H & _ & _);
      [vm_compute; reflexivity | vm_compute; reflexivity |].
    apply H. lia.
  - destruct (status_forced_inactive utc 1700000000000 1707868800000 lapsed
                (civil 2024 2 14)) as (_ & _ & H);
      [vm_compute; reflexivity | vm_compute; reflexivity |].
    rewrite H; [reflexivity | lia].
Defined.

(** C3: a renewal date that is already set is left as it is by the hook, so
    a second pass never changes what the first one left. *)
Theorem renewal_date_kept (tz : Zone) (now : Z) (this : t) (d : Date) :
  renewalDate this = Some d ->
  renewalDate (fst (preSave tz now this)) = Some d
  /\ forall later : Z,
       renewalDate (fst (preSave tz later (fst (preSave tz now this))))
       = Some d.
Proof.
  intros H.
  assert (H1 : renewalDate (fst (preSave tz now this)) = Some d).
  { rewrite preSave_renewalDate, H. reflexivity. }
  split; [exact H1 |].
  intros later. rewrite preSave_renewalDate, H1. reflexivity.
Qed.

Lemma renewal_date_kept_witness :
  renewalDate (fst (preSave utc 1710000000000 lapsed)) = Some (civil 2024 2 14).
Proof.
  destruct (renewal_date_kept utc 1710000000000 lapsed (civil 2024 2 14))
    as (H & _); [reflexivity | exact H].
Defined.

(** The hook is idempotent on the renewal date, from any document. *)
Lemma preSave_renewalDate_idempotent (tz : Zone) (now later : Z) (this : t) :
  renewalDate (fst (preSave tz later (fst (preSave tz now this))))
  = renewalDate (fst (preSave tz now this)).
Proof.
  rewrite (preSave_renewalDate tz later).
  destruct (renewalDate (fst (preSave tz now this))) as [d |] eqn:E.
  - reflexivity.
  - rewrite preSave_renewalDate in E. destruct (renewalDate this); discriminate.
Qed.

(** The hook calls [next()] twice when it derives the renewal date and once
    otherwise. *)
Lemma preSave_next_calls (tz : Zone) (now : Z) (this : t) :
  snd (preSave tz now this)
  = match renewalDate this with None => 2%nat | Some _ => 1%nat end.
Proof.
  unfold preSave.
  destruct (renewalDate this); reflexivity.
Qed.

(** C4: a candidate whose start date is not before its end date is refused
    by [save] with a [ValidationError] (a value, not an exception of the
    hook) that carries the failure of the [startDate] validator and of the
    [endDate] validator, each computed from the candidate's own other
    field. *)
Theorem dates_out_of_order_rejected (tz : Zone) (now a b : Z) (this : t) :
  startDate this = Some (at_ms a) ->
  endDate this = Some (at_ms b) ->
  a >= b ->
  startDateValidator this (at_ms a) = false
  /\ endDateValidator this (at_ms b) = false
  /\ exists errors,
       save tz now this = inl (ValidationError errors)
       /\ In ("startDate", "start date must be before end date") errors
       /\ In ("endDate", "end date must be after start date") errors.
Proof.
  intros Hs He Hab.
  assert (Vs : startDateValidator this (at_ms a) = false).
  { unfold startDateValidator. rewrite He. unfold lt. cbn.
    apply Z.ltb_ge. lia. }
  assert (Ve : endDateValidator this (at_ms b) = false).
  { unfold endDateValidator. rewrite Hs. unfold gt, lt. cbn.
    apply Z.ltb_ge. lia. }
  split; [exact Vs | split; [exact Ve |]].
  assert (Is : In ("startDate", "start date must be before end date")
                  (validate this)).
  { unfold validate. rewrite Hs.
    do 7 (apply in_or_app; right). apply in_or_app; left.
    unfold Validate.path. cbn. rewrite Vs. left. reflexivity. }
  assert (Ie : In ("endDate", "end date must be after start date")
                  (validate this)).
  { unfold validate. rewrite He.
    do 8 (apply in_or_app; right). apply in_or_app; left.
    unfold Validate.path. cbn. rewrite Ve. left. reflexivity. }
  unfold save. revert Is Ie.
  destruct (validate this) as [| e errors]; intros Is Ie.
  - destruct Is.
  - exists (e :: errors). split; [reflexivity | split; assumption].
Qed.

Lemma dates_out_of_order_rejected_witness :
  save utc 1704067200000 sameDay
  = inl (ValidationError
           [("startDate", "start date must be before end date");
            ("endDate", "end date must be after start date")]).
Proof.
  destruct (dates_out_of_order_rejected utc 1704067200000
              1705276800000 1705276800000 sameDay)
    as (_ & _ & errors & Hsave & _ & _);
    [vm_compute; reflexivity | vm_compute; reflexivity | lia |].
  rewrite Hsave. vm_compute in Hsave. injection Hsave as <-. reflexivity.
Defined.

End SubscriptionFacts.

(** ** Registration and login *)

Module AuthFacts.

Import Auth.

(** A string that has a character outside [[A-Za-z\d@$!%*?&]] is not empty
    and fails the password rule. *)
Lemma outside_class_fails_rule (s : string) :
  JsString.forallb JsString.inPasswordClass s = false ->
  Validate.nonEmpty s = true /\ JsString.passwordRegex s = false.
Proof.
  intros H. split.
  - destruct s; [discriminate H | reflexivity].
  - unfold JsString.passwordRegex. rewrite H.
    rewrite andb_false_r. reflexivity.
Qed.

(** The serialised document carries the [password] path whenever the
    document holds it. *)
Lemma toJSON_password (u : User.t) :
  field "password" (User.toJSON u) = option_map JStr (User.password u).
Proof.
  unfold User.toJSON, field.
  destruct (User.name u), (User.email u), (User.password u); reflexivity.
Qed.

Lemma validate_password_error (u : User.t) (h : string) :
  User.password u = Some h ->
  Validate.nonEmpty h = true ->
  JsString.passwordRegex h = false ->
  In ("password", "invalid password") (User.validate u).
Proof.
  intros Hp Hn Hr. unfold User.validate. rewrite Hp.
  do 2 (apply in_or_app; right).
  unfold Validate.path. cbn. rewrite Hn, Hr. left. reflexivity.
Qed.

Section WithCollaborators.

Context {hasher : PasswordHasher} {tokens : TokenService}.

(** C5: a registration whose email finds an existing user is answered with
    status 400 and the message "User already exists"; the collection is the
    one it was, so no record is created and the record count is unchanged;
    the session sees nothing after the transaction was opened. *)
Theorem signup_existing_email (salt : string) (newId : ObjectId) (now : Z)
    (body : Body) (users : User.Collection) (existing : User.t) :
  User.findOne users (email body) = Some existing ->
  reply (signup salt newId now body users)
  = Responded (mkResponse 400 (JObj [("message", JStr "User already exists")]))
  /\ db (signup salt newId now body users) = users
  /\ List.length (db (signup salt newId now body users)) = List.length users
  /\ session (signup salt newId now body users)
     = [StartSession; StartTransaction].
Proof.
  intros H. unfold signup. rewrite H. cbn. repeat split; reflexivity.
Qed.

(** Whatever a registration does, it adds at most the one new document, and
    only when it answers 201. *)
Lemma signup_db (salt : string) (newId : ObjectId) (now : Z)
    (body : Body) (users : User.Collection) :
  db (signup salt newId now body users) = users
  \/ exists (newUser : User.t) (r : Response),
       db (signup salt newId now body users) = (users ++ [newUser])%list
       /\ reply (signup salt newId now body users) = Responded r
       /\ statusCode r = 201.
Proof.
  unfold signup.
  destruct (User.findOne users (email body)); [left; reflexivity |].
  destruct (hash (password body) salt) as [e | h]; [left; reflexivity |].
  cbn [bind].
  unfold User.create.
  destruct (User.validate _); [| left; reflexivity].
  destruct (existsb _ users); [left; reflexivity |].
  cbn [bind].
  destruct (jwt_sign _) as [e | token]; [left; reflexivity |].
  right. eexists. eexists. cbn. repeat split.
Qed.

(** Every 201 answer of [signup] carries the token and the new document
    with its [password] path, which holds the hash. *)
Lemma signup_created_body (salt : string) (newId : ObjectId) (now : Z)
    (body : Body) (users : User.Collection) (payload : Json) :
  reply (signup salt newId now body users)
  = Responded (mkResponse 201 payload) ->
  exists (plain token : string) (userJson : Json),
    password body = Some plain
    /\ field "token" payload = Some (JStr token)
    /\ field "user" payload = Some userJson
    /\ field "password" userJson = Some (JStr (bcrypt_hash plain salt)).
Proof.
  unfold signup.
  destruct (User.findOne users (email body)); [discriminate |].
  destruct (password body) as [plain |]; [| discriminate].
  cbn [hash bind].
  unfold User.create.
  destruct (User.validate _); [| discriminate].
  destruct (existsb _ users); [discriminate |].
  cbn [bind].
  destruct (jwt_sign _) as [e | token]; [discriminate |].
  cbn. intros H. injection H as <-.
  exists plain, token. eexists. repeat split.
  apply toJSON_password.
Qed.

(** C9: the password rule of the schema is applied to the hash.  When no
    user has the email and the hash of the plaintext has a character outside
    [[A-Za-z\d@$!%*?&]], the registration ends in a [ValidationError] with
    "invalid password", whatever the plaintext, the name and the email are;
    the transaction is aborted, nothing is stored, and the error boundary
    answers 400. *)
Theorem signup_hash_breaks_password_rule (salt : string) (newId : ObjectId)
    (now : Z) (body : Body) (users : User.Collection) (plain : string) :
  User.findOne users (email body) = None ->
  password body = Some plain ->
  JsString.forallb JsString.inPasswordClass (bcrypt_hash plain salt) = false ->
  exists errors,
    reply (signup salt newId now body users)
    = NextError (ValidationError errors)
    /\ In ("password", "invalid password") errors
    /\ db (signup salt newId now body users) = users
    /\ session (signup salt newId now body users)
       = [StartSession; StartTransaction; AbortTransaction; EndSession]
    /\ statusCode (errorMiddleware (ValidationError errors)) = 400.
Proof.
  intros Hfind Hplain Hclass.
  destruct (outside_class_fails_rule _ Hclass) as [Hn Hr].
  unfold signup. rewrite Hfind, Hplain. cbn [hash bind].
  unfold User.create.
  match goal with
  | |- context [User.validate ?doc] =>
      pose proof (validate_password_error doc _ eq_refl Hn Hr) as Hin;
      destruct (User.validate doc) as [| e errors]
  end.
  - destruct Hin.
  - exists (e :: errors). cbn. repeat split. exact Hin.
Qed.

(** Login never hands an error to the error boundary: when the [try] block
    throws, the transaction is aborted and the request is left without a
    reply. *)
Lemma signin_never_forwards (body : Body) (users : User.Collection)
    (e : Error) :
  reply (signin body users) <> NextError e.
Proof.
  unfold signin.
  destruct (User.findOne users (email body)) as [u |]; [| discriminate].
  destruct (compare (password body) (User.password u)) as [err | ok];
    [discriminate |].
  cbn [bind]. destruct ok; cbn [negb]; [| discriminate].
  destruct (jwt_sign (User._id u)); discriminate.
Qed.

Lemma signin_throw_unanswered (body : Body) (users : User.Collection) :
  In AbortTransaction (session (signin body users)) ->
  reply (signin body users) = NoReply
  /\ session (signin body users)
     = [StartSession; StartTransaction; AbortTransaction].
Proof.
  unfold signin.
  destruct (User.findOne users (email body)) as [u |].
  - destruct (compare (password body) (User.password u)) as [err | ok].
    + intros _. split; reflexivity.
    + cbn [bind]. destruct ok; cbn [negb].
      * destruct (jwt_sign (User._id u)).
        -- intros _. split; reflexivity.
        -- cbn. intros [H | [H | []]]; discriminate.
      * cbn. intros [H | [H | []]]; discriminate.
  - cbn. intros [H | [H | []]]; discriminate.
Qed.

End WithCollaborators.

End AuthFacts.

(** ** The access guard and the profile handlers *)

Module UsersFacts.

Import Users.

Section WithCollaborators.

Context {tokens : TokenService}.

(** What the guard did when it lets a request through. *)
Lemma authorize_next_inv (users : User.Collection) (req req' : Request) :
  authorize users req = Next req' ->
  exists (token : string) (id : string) (u : User.t),
    bearerToken req = Some token
    /\ jwt_verify token = inr id
    /\ User.findById users (Some id) = inr (Some u)
    /\ req' = set_user req (User.selectMinusPassword u).
Proof.
  unfold authorize, catchNext.
  destruct (bearerToken req) as [[| c token] |]; try discriminate.
  destruct (jwt_verify (String c token)) as [e | id] eqn:V;
    cbn [bind]; [discriminate |].
  destruct (User.findById users (Some id)) as [e | [u |]] eqn:F;
    cbn [bind option_map]; try discriminate.
  intros H. injection H as <-.
  exists (String c token), id, u. repeat split; assumption.
Qed.

(** C8: the guard answers 401 "Unauthorized" when the Authorization header
    is absent and when it does not start with "Bearer"; with a token, an
    error thrown by the verification goes to [next(error)], a verified token
    whose user is not found is answered 401 "Unauthorized", and a verified
    token whose user is found lets the request through: the request that
    goes on has that user as [req.user], with its identifier, name and email
    and without its password, and is otherwise the request that came in. *)
Theorem authorize_guard (users : User.Collection) (req : Request) :
  (authorization req = None ->
   authorize users req
   = Responded (mkResponse 401 (JObj [("message", JStr "Unauthorized")])))
  /\ (forall a,
        authorization req = Some a ->
        JsString.startsWith a "Bearer" = false ->
        authorize users req
        = Responded (mkResponse 401 (JObj [("message", JStr "Unauthorized")])))
  /\ (forall token,
        bearerToken req = Some token -> token <> EmptyString ->
        (forall e,
           jwt_verify token = inl e -> authorize users req = NextError e)
        /\ (forall id,
              jwt_verify token = inr id ->
              User.findById users (Some id) = inr None ->
              authorize users req
              = Responded
                  (mkResponse 401 (JObj [("message", JStr "Unauthorized")])))
        /\ (forall id u,
              jwt_verify token = inr id ->
              User.findById users (Some id) = inr (Some u) ->
              exists req' attached,
                authorize users req = Next req'
                /\ req' = set_user req (User.selectMinusPassword u)
                /\ user req' = Some attached
                /\ authorization req' = authorization req
                /\ params_id req' = params_id req
                /\ User._id attached = User._id u
                /\ User.name attached = User.name u
                /\ User.email attached = User.email u
                /\ User.password attached = None
                /\ field "password" (User.toJSON attached) = None)).
Proof.
  split; [| split].
  - intros H. unfold authorize, bearerToken. rewrite H. reflexivity.
  - intros a H Hp. unfold authorize, bearerToken. rewrite H, Hp.
    rewrite andb_false_r. reflexivity.
  - intros token Ht Hne. unfold authorize. rewrite Ht.
    destruct token as [| c token]; [contradiction |].
    split; [| split].
    + intros e V. rewrite V. reflexivity.
    + intros id V F. rewrite V. cbn [bind]. rewrite F. reflexivity.
    + intros id u V F. rewrite V. cbn [bind]. rewrite F.
      exists (set_user req (User.selectMinusPassword u)).
      exists (User.selectMinusPassword u).
      repeat (split; [reflexivity |]).
      rewrite AuthFacts.toJSON_password. reflexivity.
Qed.

(** A header without a token after "Bearer" leaves no token to verify. *)
Lemma authorize_empty_token (users : User.Collection) (req : Request) :
  bearerToken req = None \/ bearerToken req = Some EmptyString ->
  authorize users req = unauthorized.
Proof.
  intros [H | H]; unfold authorize; rewrite H; reflexivity.
Qed.

(** The profile handler behind the guard: when the guard has let the
    request through and the user it attached (which has no password) is
    still found, the handler reads the whole document again and answers 200
    with a user object whose [password] is the stored hash. *)
Lemma getUserProfile_after_guard (users users' : User.Collection)
    (req req' : Request) (attached stored : User.t) (h : string) :
  authorize users req = Next req' ->
  user req' = Some attached ->
  User.findById users' (Some (User._id attached)) = inr (Some stored) ->
  User.password stored = Some h ->
  User.password attached = None
  /\ exists payload data userJson,
       getUserProfile users' req' = Responded (mkResponse 200 payload)
       /\ field "data" payload = Some data
       /\ field "user" data = Some userJson
       /\ field "password" userJson = Some (JStr h).
Proof.
  intros Hauth Huser Hfind Hpw.
  destruct (authorize_next_inv users req req' Hauth)
    as (token & id & u & _ & _ & _ & ->).
  cbn in Huser. injection Huser as <-.
  split; [reflexivity |].
  unfold getUserProfile. cbn [user set_user].
  assert (Hid : Validate.nonEmpty
                  (User._id (User.selectMinusPassword u)) = true).
  { revert Hfind. unfold User.findById, User.isObjectId.
    destruct (User._id (User.selectMinusPassword u)); [| reflexivity].
    cbn. discriminate. }
  rewrite Hid. rewrite Hfind. cbn [bind catchNext].
  do 3 eexists. repeat split.
  rewrite AuthFacts.toJSON_password, Hpw. reflexivity.
Qed.

(** Without [req.user] the profile handler answers 401. *)
Lemma getUserProfile_no_user (users : User.Collection) (req : Request) :
  user req = None ->
  getUserProfile users req
  = Responded
      (mkResponse 401
         (JObj [("message",
                 JStr "Authentication required. Please login first.");
                ("success", JBool false)])).
Proof.
  intros H. unfold getUserProfile. rewrite H. reflexivity.
Qed.

(** The route [GET /] runs the profile handler alone, so what it answers
    does not depend on the Authorization header. *)
Lemma handle_GetRoot (users : User.Collection) (req : Request) :
  handle GetRoot users req
  = match getUserProfile users req with
    | Next req' => Next req'
    | r => r
    end.
Proof.
  unfold handle, userRouter, run. destruct (getUserProfile users req); reflexivity.
Qed.

End WithCollaborators.

End UsersFacts.

(** ** The properties on the sample data *)

Module Scenarios.

Import Samples.

#[local] Existing Instance Samples.hasher.
#[local] Existing Instance Samples.tokens.

(** A second registration with the email of [alice]. *)
Lemma signup_existing_email_witness :
  Auth.reply (Auth.signup saltDotted bobId 1704067200000 strongPassword [alice])
  = Responded (mkResponse 400 (JObj [("message", JStr "User already exists")]))
  /\ Auth.db (Auth.signup saltDotted bobId 1704067200000 strongPassword [alice])
     = [alice].
Proof.
  destruct (AuthFacts.signup_existing_email saltDotted bobId 1704067200000
              strongPassword [alice] alice) as (H1 & H2 & _ & _).
  - vm_compute; reflexivity.
  - split; assumption.
Defined.

(** C6: the registration of scenario A is answered 201 with the token and
    with a user object that has a [password] key holding the hash. *)
Theorem signup_response_exposes_hash :
  exists payload userJson,
    Auth.reply (Auth.signup saltPlain aliceId 1704067200000 scenarioA [])
    = Responded (mkResponse 201 payload)
    /\ field "token" payload = Some (JStr "jwt.64f8a1b2c3d4e5f6a7b8c9d0")
    /\ field "user" payload = Some userJson
    /\ field "password" userJson
       = Some (JStr "$2a$10$fVH8e28OQRj9tqiDXs1e1uxpsjN0c7II7YPKXua2NAKYvM6iQk7dq").
Proof.
  do 2 eexists. split; [vm_compute; reflexivity |].
  repeat split; vm_compute; reflexivity.
Qed.

(** C7: a login for [alice] without a password makes the comparison throw;
    the transaction is aborted and the request gets neither a response nor
    a call of [next]. *)
Theorem signin_error_not_forwarded :
  Auth.compare (Auth.password noPassword) (User.password alice)
  = inl (ThrownError "Illegal arguments: undefined, string")
  /\ Auth.reply (Auth.signin noPassword [alice]) = NoReply
  /\ Auth.session (Auth.signin noPassword [alice])
     = [StartSession; StartTransaction; AbortTransaction].
Proof.
  repeat split; vm_compute; reflexivity.
Qed.

(** A plaintext that meets the password rule, hashed with a salt that has a
    "/" and a ".". *)
Lemma signup_hash_breaks_password_rule_witness :
  JsString.passwordRegex "Password1!" = true
  /\ Auth.reply (Auth.signup saltDotted aliceId 1704067200000 strongPassword [])
     = NextError (ValidationError [("password", "invalid password")]).
Proof.
  split; [reflexivity |].
  destruct (AuthFacts.signup_hash_breaks_password_rule saltDotted aliceId
              1704067200000 strongPassword [] "Password1!")
    as (errors & H & _);
    [reflexivity | reflexivity | vm_compute; reflexivity |].
  rewrite H. vm_compute in H. injection H as <-. reflexivity.
Defined.

(** The five cases of the guard. *)
Lemma authorize_guard_witness :
  Users.authorize [alice] bare
  = Responded (mkResponse 401 (JObj [("message", JStr "Unauthorized")]))
  /\ Users.authorize [alice] basic
     = Responded (mkResponse 401 (JObj [("message", JStr "Unauthorized")]))
  /\ Users.authorize [alice] garbage = NextError (ThrownError "jwt malformed")
  /\ Users.authorize [alice] gone
     = Responded (mkResponse 401 (JObj [("message", JStr "Unauthorized")]))
  /\ exists req' attached,
       Users.authorize [alice] withToken = Next req'
       /\ Users.user req' = Some attached
       /\ User._id attached = aliceId
       /\ User.name attached = Some "Test User"
       /\ User.email attached = Some "test@example.com"
       /\ User.password attached = None
       /\ Users.authorization req' = Users.authorization withToken.
Proof.
  split; [| split; [| split; [| split]]].
  - destruct (UsersFacts.authorize_guard [alice] bare) as (H & _ & _).
    apply H. reflexivity.
  - destruct (UsersFacts.authorize_guard [alice] basic) as (_ & H & _).
    apply (H "Basic dGVzdDp0ZXN0"); reflexivity.
  - destruct (UsersFacts.authorize_guard [alice] garbage) as (_ & _ & H).
    destruct (H "garbage") as (Hv & _ & _);
      [vm_compute; reflexivity | discriminate |].
    apply Hv. reflexivity.
  - destruct (UsersFacts.authorize_guard [alice] gone) as (_ & _ & H).
    destruct (H ("jwt." ++ bobId)) as (_ & Hn & _);
      [vm_compute; reflexivity | discriminate |].
    apply (Hn bobId); vm_compute; reflexivity.
  - destruct (UsersFacts.authorize_guard [alice] withToken) as (_ & _ & H).
    destruct (H ("jwt." ++ aliceId)) as (_ & _ & Hs);
      [vm_compute; reflexivity | discriminate |].
    destruct (Hs aliceId alice)
      as (req' & attached & Hr & _ & Hu & Ha & _ & Hid & Hn & He & Hp & _);
      [vm_compute; reflexivity .. |].
    exists req', attached. repeat split; assumption.
Defined.

(** C10: a request to [GET /] that carries the token of [alice], which the
    guard lets through and whose user is in the collection, is answered 401
    by the route and not 200 with the user: the route runs the profile
    handler without the guard, so [req.user] is not set. *)
Theorem profile_route_not_guarded :
  Users.authorize [alice] withToken
  = Next (Users.set_user withToken (User.selectMinusPassword alice))
  /\ User.findById [alice] (Some aliceId) = inr (Some alice)
  /\ Users.handle Users.GetRoot [alice] withToken
     = Responded
         (mkResponse 401
            (JObj [("message",
                    JStr "Authentication required. Please login first.");
                   ("success", JBool false)]))
  /\ ~ (exists payload,
          Users.handle Users.GetRoot [alice] withToken
          = Responded (mkResponse 200 payload)).
Proof.
  split; [vm_compute; reflexivity |].
  split; [vm_compute; reflexivity |].
  split; [vm_compute; reflexivity |].
  intros [payload H]. vm_compute in H. discriminate H.
Qed.

(** The profile handler behind the guard, for [alice]: the answer carries
    the stored hash. *)
Lemma getUserProfile_after_guard_alice :
  exists payload data userJson,
    Users.getUserProfile [alice]
      (Users.set_user withToken (User.selectMinusPassword alice))
    = Responded (mkResponse 200 payload)
    /\ field "data" payload = Some data
    /\ field "user" data = Some userJson
    /\ field "password" userJson
       = Some (JStr "$2a$10$fVH8e28OQRj9tqiDXs1e1uxpsjN0c7II7YPKXua2NAKYvM6iQk7dq").
Proof.
  destruct (UsersFacts.getUserProfile_after_guard [alice] [alice] withToken
              (Users.set_user withToken (User.selectMinusPassword alice))
              (User.selectMinusPassword alice) alice
              "$2a$10$fVH8e28OQRj9tqiDXs1e1uxpsjN0c7II7YPKXua2NAKYvM6iQk7dq")
    as (_ & H); [vm_compute; reflexivity .. |].
  exact H.
Defined.

(** The sibling handler of [GET /:id] leaves the password out. *)
Lemma getSingleUser_hides_password :
  exists payload data userJson,
    Users.handle Users.GetById [alice]
      (Users.mkRequest (Some ("Bearer jwt." ++ aliceId)) (Some aliceId) None)
    = Responded (mkResponse 200 payload)
    /\ field "data" payload = Some data
    /\ field "user" data = Some userJson
    /\ field "password" userJson = None.
Proof.
  do 3 eexists. split; [vm_compute; reflexivity |].
  repeat split; vm_compute; reflexivity.
Qed.

End Scenarios.

(** ** What the two regular expressions accept *)

Module RegexFacts.

Import JsString Spec.

Lemma forallb_chars (p : ascii -> bool) (s : string) :
  JsString.forallb p s = true <-> forall c, In c (chars s) -> p c = true.
Proof.
  induction s as [| a s IH]; cbn.
  - split; [intros _ c [] | reflexivity].
  - rewrite andb_true_iff, IH. split.
    + intros [Ha Hs] c [<- | Hc]; auto.
    + intros H. split; [apply H; left; reflexivity |].
      intros c Hc. apply H. right. exact Hc.
Qed.

Lemma class_not_terminator (c : ascii) :
  inPasswordClass c = true -> isLineTerminator c = false.
Proof.
  destruct c as [[] [] [] [] [] [] [] []]; vm_compute; congruence.
Qed.

Lemma ahead_has (p : ascii -> bool) (s : string) :
  JsString.forallb inPasswordClass s = true ->
  (ahead p s = true <-> has p s).
Proof.
  induction s as [| a s IH]; cbn; intros Hall.
  - split; [discriminate | intros (c & [] & _)].
  - apply andb_true_iff in Hall as [Ha Hs].
    rewrite (class_not_terminator a Ha). cbn [negb andb].
    rewrite orb_true_iff, (IH Hs). split.
    + intros [H | (c & Hc & Hp)].
      * exists a. split; [left; reflexivity | exact H].
      * exists c. split; [right; exact Hc | exact Hp].
    + intros (c & [<- | Hc] & Hp); [left; exact Hp |].
      right. exists c. split; assumption.
Qed.

(** The password rule accepts exactly the strings of at least 8 characters,
    all of them letters, digits or one of [@$!%*?&], with a lower-case
    letter, an upper-case letter, a digit and one of the special characters
    among them. *)
Theorem passwordRegex_accepts (s : string) :
  passwordRegex s = true <->
  (8 <= len s
   /\ (forall c, In c (chars s) -> inPasswordClass c = true)
   /\ has isLower s /\ has isUpper s /\ has isDigit s /\ has isSpecial s).
Proof.
  unfold passwordRegex. rewrite !andb_true_iff, Z.leb_le.
  split.
  - intros (((((Hl & Hu) & Hd) & Hs) & Hall) & Hlen).
    repeat split; try assumption.
    + apply forallb_chars, Hall.
    + apply (ahead_has _ _ Hall), Hl.
    + apply (ahead_has _ _ Hall), Hu.
    + apply (ahead_has _ _ Hall), Hd.
    + apply (ahead_has _ _ Hall), Hs.
  - intros (Hlen & Hall & Hl & Hu & Hd & Hs).
    apply forallb_chars in Hall.
    repeat split; try assumption; apply (ahead_has _ _ Hall); assumption.
Qed.

(** [\S+] then [k]: a non-empty prefix without white space, and [k] on the
    rest. *)
Lemma nonSpaces1_iff (k : string -> bool) (s : string) :
  nonSpaces1 k s = true <->
  exists a r, s = (a ++ r)%string /\ a <> EmptyString /\ noSpace a
              /\ k r = true.
Proof.
  induction s as [| c s IH]; cbn.
  - split; [discriminate |].
    intros (a & r & E & Ha & _). destruct a; [contradiction | discriminate E].
  - rewrite andb_true_iff, negb_true_iff, orb_true_iff, IH. split.
    + intros (Hc & [Hk | (a & r & -> & Ha & Hn & Hk)]).
      * exists (String c EmptyString), s. repeat split; try assumption.
        -- discriminate.
        -- intros x [<- | []]. exact Hc.
      * exists (String c a), r. repeat split; try assumption.
        -- discriminate.
        -- intros x [<- | Hx]; [exact Hc | apply Hn, Hx].
    + intros (a & r & E & Ha & Hn & Hk).
      destruct a as [| c' a]; [contradiction |].
      cbn in E. injection E as <- ->.
      split; [apply Hn; left; reflexivity |].
      destruct a as [| c'' a].
      * left. exact Hk.
      * right. exists (String c'' a), r. repeat split; try assumption.
        -- discriminate.
        -- intros x Hx. apply Hn. right. exact Hx.
Qed.

Lemma lit_iff (c : ascii) (k : string -> bool) (s : string) :
  lit c k s = true <-> exists r, s = String c r /\ k r = true.
Proof.
  destruct s as [| c' s]; cbn.
  - split; [discriminate | intros (r & E & _); discriminate E].
  - rewrite andb_true_iff. split.
    + intros [Hc Hk]. apply Ascii.eqb_eq in Hc as ->. exists s. auto.
    + intros (r & E & Hk). injection E as -> ->.
      split; [apply Ascii.eqb_refl | exact Hk].
Qed.

Lemma isEmpty_iff (s : string) : isEmpty s = true <-> s = EmptyString.
Proof. destruct s; cbn; split; congruence. Qed.

Lemma append_empty (s : string) : (s ++ EmptyString)%string = s.
Proof. induction s; cbn; congruence. Qed.

(** The email rule accepts exactly the strings [a@b.c] with [a], [b] and
    [c] non-empty and free of white space. *)
Theorem emailRegex_accepts (s : string) :
  emailRegex s = true <->
  exists a b c,
    s = (a ++ "@" ++ b ++ "." ++ c)%string
    /\ a <> EmptyString /\ b <> EmptyString /\ c <> EmptyString
    /\ noSpace a /\ noSpace b /\ noSpace c.
Proof.
  unfold emailRegex. rewrite nonSpaces1_iff. split.
  - intros (a & r & -> & Ha & Na & H).
    apply lit_iff in H as (r1 & -> & H).
    apply nonSpaces1_iff in H as (b & r2 & -> & Hb & Nb & H).
    apply lit_iff in H as (r3 & -> & H).
    apply nonSpaces1_iff in H as (c & r4 & -> & Hc & Nc & H).
    apply isEmpty_iff in H as ->.
    exists a, b, c. repeat split; try assumption.
    rewrite append_empty. reflexivity.
  - intros (a & b & c & -> & Ha & Hb & Hc & Na & Nb & Nc).
    exists a, ("@" ++ b ++ "." ++ c)%string. repeat split; try assumption.
    apply lit_iff. exists (b ++ "." ++ c)%string. split; [reflexivity |].
    apply nonSpaces1_iff. exists b, ("." ++ c)%string.
    repeat split; try assumption.
    apply lit_iff. exists c. split; [reflexivity |].
    apply nonSpaces1_iff. exists c, EmptyString. repeat split; try assumption.
    symmetry. apply append_empty.
Qed.

End RegexFacts.

(** ** More on the subscription model *)

Module SubscriptionMore.

Import JsDate Subscription.

(** A path has no error exactly when all its validators pass. *)
Lemma path_nil_iff {A : Type} (name : string) (vs : list (Validate.Validator A))
    (v : option A) :
  Validate.path name vs v = [] <-> Forall (fun okmsg => fst okmsg v = true) vs.
Proof.
  unfold Validate.path.
  assert (H : Validate.firstFailure vs v = None
              <-> Forall (fun okmsg => fst okmsg v = true) vs).
  { induction vs as [| [ok msg] vs IH]; cbn.
    - split; [constructor | reflexivity].
    - destruct (ok v) eqn:E.
      + rewrite IH. split.
        * intros F. constructor; [exact E | exact F].
        * intros F. inversion F. assumption.
      + split; [discriminate |].
        intros F. inversion F as [| ? ? Hok]. cbn in Hok. congruence. }
  rewrite <- H. destruct (Validate.firstFailure vs v); split; congruence.
Qed.

Lemma enum_In (values : list string) (s : string) :
  Validate.enum values s = true <-> In s values.
Proof.
  unfold Validate.enum. rewrite existsb_exists. split.
  - intros (x & Hx & E). apply String.eqb_eq in E as ->. exact Hx.
  - intros H. exists s. split; [exact H | apply String.eqb_refl].
Qed.

Lemma nonEmpty_iff (s : string) :
  Validate.nonEmpty s = true <-> s <> EmptyString.
Proof.
  destruct s; cbn; split; congruence.
Qed.

Lemma app_nil_iff {A : Type} (l l' : list A) :
  (l ++ l')%list = [] <-> l = [] /\ l' = [].
Proof.
  split; [apply app_eq_nil | intros [-> ->]; reflexivity].
Qed.

Ltac forall_split :=
  repeat match goal with
         | H : Forall _ (_ :: _) |- _ =>
             apply Forall_cons_iff in H; destruct H as [? H]
         | H : Forall _ [] |- _ => clear H
         end.

(** The schema's validation as conditions on the fields. *)
Lemma validate_nil_iff (this : t) :
  validate this = [] <->
  (exists n, name this = Some n /\ 3 <= JsString.len n <= 20)
  /\ (exists p, price this = Some p /\ 0 <= p)
  /\ (exists c, currency this = Some c /\ In c currencies)
  /\ (exists f, frequency this = Some f /\ In f frequencies)
  /\ (exists c, category this = Some c /\ In c categories)
  /\ (exists m, paymentMethod this = Some m /\ m <> EmptyString)
  /\ (exists s, status this = Some s /\ In s statuses)
  /\ (exists a b, startDate this = Some (at_ms a)
                  /\ endDate this = Some (at_ms b) /\ a < b)
  /\ user this <> None.
Proof.
  unfold validate.
  rewrite !app_nil_iff, !path_nil_iff.
  split.
  - intros (Hn & Hp & Hc & Hf & Hcat & Hm & Hs & Hsd & Hed & Hu).
    forall_split. cbn [fst Validate.required Validate.check] in *.
    repeat split.
    + destruct (name this) as [n |]; [| discriminate].
      exists n. unfold Validate.minlength, Validate.maxlength in *. split; [reflexivity | lia].
    + destruct (price this) as [p |]; [| discriminate]. exists p. split; [reflexivity | lia].
    + destruct (currency this) as [c |]; [| discriminate].
      exists c. split; [reflexivity | apply enum_In; assumption].
    + destruct (frequency this) as [c |]; [| discriminate].
      exists c. split; [reflexivity | apply enum_In; assumption].
    + destruct (category this) as [c |]; [| discriminate].
      exists c. split; [reflexivity | apply enum_In; assumption].
    + destruct (paymentMethod this) as [m |]; [| discriminate].
      exists m. split; [reflexivity | apply nonEmpty_iff; assumption].
    + destruct (status this) as [c |]; [| discriminate].
      exists c. split; [reflexivity | apply enum_In; assumption].
    + unfold startDateValidator, endDateValidator, gt, lt in *.
      destruct (startDate this) as [[[a |]] |]; try discriminate;
        destruct (endDate this) as [[[b |]] |]; try discriminate.
      exists a, b. repeat split. cbn in *. lia.
    + destruct (user this); [discriminate | discriminate].
  - intros ((n & En & Hn) & (p & Ep & Hp) & (c & Ec & Hc) & (f & Ef & Hf)
            & (cat & Ecat & Hcat) & (m & Em & Hm) & (s & Es & Hs)
            & (a & b & Ea & Eb & Hab) & Hu).
    rewrite En, Ep, Ec, Ef, Ecat, Em, Es, Ea, Eb.
    unfold startDateValidator, endDateValidator, gt, lt.
    rewrite Ea, Eb.
    apply enum_In in Hc, Hf, Hcat, Hs.
    apply nonEmpty_iff in Hm.
    assert (Validate.nonEmpty n = true).
    { apply nonEmpty_iff. intros ->. cbn in Hn. lia. }
    repeat split; repeat constructor; cbn;
      unfold Validate.minlength, Validate.maxlength, Validate.always;
      try assumption; try lia.
    all: try (destruct c; [vm_compute in Hc; discriminate | reflexivity]).
    all: try (destruct f; [vm_compute in Hf; discriminate | reflexivity]).
    all: try (destruct cat; [vm_compute in Hcat; discriminate | reflexivity]).
    all: try (destruct s; [vm_compute in Hs; discriminate | reflexivity]).
    destruct (user this); [reflexivity | contradiction].
Qed.

(** What the schema accepts: a document passes validation exactly when it
    has a name of 3 to 20 characters, a price that is not negative, a
    currency, a frequency, a category and a status of the enumerated ones, a
    payment method that is not empty, valid start and end dates with the
    start strictly before the end, and a user. *)
Theorem subscription_validate_accepts (this : t) :
  validate this = [] <->
  (exists n, name this = Some n /\ 3 <= JsString.len n <= 20)
  /\ (exists p, price this = Some p /\ 0 <= p)
  /\ (exists c, currency this = Some c /\ In c currencies)
  /\ (exists f, frequency this = Some f /\ In f frequencies)
  /\ (exists c, category this = Some c /\ In c categories)
  /\ (exists m, paymentMethod this = Some m /\ m <> EmptyString)
  /\ (exists s, status this = Some s /\ In s statuses)
  /\ (exists a b, startDate this = Some (at_ms a)
                  /\ endDate this = Some (at_ms b) /\ a < b)
  /\ user this <> None.
Proof.
  apply validate_nil_iff.
Qed.

(** The fields of the document after the hook. *)
Lemma preSave_fields (tz : Zone) (now : Z) (this : t) :
  let after := fst (preSave tz now this) in
  name after = name this
  /\ price after = price this
  /\ currency after = currency this
  /\ frequency after = frequency this
  /\ category after = category this
  /\ paymentMethod after = paymentMethod this
  /\ startDate after = startDate this
  /\ endDate after = endDate this
  /\ user after = user this
  /\ (status after = status this \/ status after = Some "inactive")
  /\ renewalDate after <> None.
Proof.
  cbv zeta. unfold preSave.
  destruct (renewalDate this) as [d |] eqn:E.
  - rewrite E. destruct (lt d (at_ms now)); cbn; rewrite ?E;
      repeat split; auto; discriminate.
  - cbn [set_renewalDate renewalDate frequency].
    match goal with
    | |- context [if ?b then _ else _] => destruct b
    end; cbn; repeat split; auto; discriminate.
Qed.

(** The hook writes [renewalDate] and [status] and nothing else, and the
    only status it writes is "inactive". *)
Theorem preSave_frame (tz : Zone) (now : Z) (this : t) :
  let after := fst (preSave tz now this) in
  name after = name this
  /\ price after = price this
  /\ currency after = currency this
  /\ frequency after = frequency this
  /\ category after = category this
  /\ paymentMethod after = paymentMethod this
  /\ startDate after = startDate this
  /\ endDate after = endDate this
  /\ user after = user this
  /\ (status after = status this \/ status after = Some "inactive")
  /\ renewalDate after <> None.
Proof.
  apply preSave_fields.
Qed.

(** A document that passes validation still passes it after the hook. *)
Theorem preSave_keeps_valid (tz : Zone) (now : Z) (this : t) :
  validate this = [] -> validate (fst (preSave tz now this)) = [].
Proof.
  intros H.
  destruct (preSave_fields tz now this)
    as (En & Ep & Ec & Ef & Ecat & Em & Es & Ee & Eu & Est & _).
  apply validate_nil_iff in H. apply validate_nil_iff.
  rewrite En, Ep, Ec, Ef, Ecat, Em, Es, Ee, Eu.
  destruct H as (Hn & Hp & Hc & Hf & Hcat & Hm & Hs & Hd & Hu).
  repeat split; try assumption.
  destruct Est as [-> | ->]; [exact Hs |].
  exists "inactive". split; [reflexivity |]. cbn. auto.
Qed.

(** With the clock moving forward, a pass of the hook after an earlier pass
    leaves the document a single pass at the later time leaves; in
    particular the hook is idempotent at a given time, and a status it set
    to "inactive" stays. *)
Theorem preSave_twice (tz : Zone) (now later : Z) (this : t) :
  now <= later ->
  fst (preSave tz later (fst (preSave tz now this)))
  = fst (preSave tz later this).
Proof.
  intros Hle.
  assert (mono : forall d, lt d (at_ms now) = true ->
                           lt d (at_ms later) = true).
  { intros d. unfold lt. destruct (valueOf d); [| discriminate].
    cbn. rewrite !Z.ltb_lt. lia. }
  destruct this as [n p c f cat m st sd ed u [d |]]; unfold preSave;
    cbn [renewalDate set_renewalDate startDate frequency].
  - destruct (lt d (at_ms now)) eqn:L1; cbn [fst set_status renewalDate].
    + rewrite (mono d L1). reflexivity.
    + reflexivity.
  - match goal with
    | |- context [lt ?r (at_ms now)] => set (d := r)
    end.
    destruct (lt d (at_ms now)) eqn:L1;
      cbn -[lt setDate getDate plus renewalPeriodAt newDate]; fold d.
    + rewrite (mono d L1). reflexivity.
    + destruct (lt d (at_ms later)); reflexivity.
Qed.

Lemma preSave_twice_witness :
  fst (preSave utc 1710000000000 (fst (preSave utc 1700000000000 Samples.scenarioD)))
  = fst (preSave utc 1710000000000 Samples.scenarioD).
Proof.
  apply (preSave_twice utc 1700000000000 1710000000000 Samples.scenarioD). lia.
Defined.

(** When the hook cannot derive a date, because the start date is missing
    or the frequency is not a key of the table, the renewal date becomes an
    Invalid Date; no later pass repairs it and none of them touches the
    status. *)
Theorem preSave_invalid_date (tz : Zone) (now : Z) (this : t) :
  renewalDate this = None ->
  startDate this = None \/ renewalPeriodAt (frequency this) = None ->
  renewalDate (fst (preSave tz now this)) = Some NaN
  /\ status (fst (preSave tz now this)) = status this
  /\ forall later : Z,
       renewalDate (fst (preSave tz later (fst (preSave tz now this))))
       = Some NaN
       /\ status (fst (preSave tz later (fst (preSave tz now this))))
          = status this.
Proof.
  intros Hr Hbad.
  assert (Hd : renewalDate (fst (preSave tz now this)) = Some NaN).
  { rewrite SubscriptionFacts.preSave_renewalDate, Hr.
    destruct Hbad as [-> | ->]; [reflexivity |].
    unfold setDate, plus. destruct (startDate this) as [[[v |]] |];
      cbn; reflexivity. }
  assert (Hs : status (fst (preSave tz now this)) = status this).
  { rewrite SubscriptionFacts.preSave_status, Hd. reflexivity. }
  split; [exact Hd | split; [exact Hs |]].
  intros later.
  assert (Hd' : renewalDate (fst (preSave tz later (fst (preSave tz now this))))
                = Some NaN).
  { rewrite SubscriptionFacts.preSave_renewalDate, Hd. reflexivity. }
  split; [exact Hd' |].
  rewrite SubscriptionFacts.preSave_status, Hd'. exact Hs.
Qed.

Lemma preSave_invalid_date_witness :
  renewalDate (fst (preSave utc 1710000000000 Samples2.fortnightly)) = Some NaN
  /\ status (fst (preSave utc 1710000000000 Samples2.fortnightly))
     = Some "active".
Proof.
  destruct (preSave_invalid_date utc 1710000000000 Samples2.fortnightly)
    as (H1 & H2 & _); [reflexivity | right; reflexivity |].
  split; [exact H1 | rewrite H2; reflexivity].
Defined.

(** What a successful [save] returns for a document without renewal date:
    the document with the renewal date 1, 7, 30 or 365 days after the start
    on the host's local clock, as the frequency has it; where the host's
    offset is the same at both ends and the result is representable, that
    is the start plus that many times 24 hours, strictly after the start. *)
Theorem save_sets_renewal (tz : Zone) (now t0 : Z) (this saved : t) :
  save tz now this = inr saved ->
  renewalDate this = None ->
  startDate this = Some (at_ms t0) ->
  exists f n,
    frequency this = Some f
    /\ In (f, n) renewalPeriod
    /\ renewalDate saved
       = Some (mkDate (TimeClip (UTC tz (LocalTime tz t0 + n * msPerDay))))
    /\ (tz (LocalTime tz t0 + n * msPerDay) false = tz t0 true ->
        - maxTime <= t0 <= maxTime - 365 * msPerDay ->
        renewalDate saved = Some (at_ms (t0 + n * msPerDay))
        /\ lt (at_ms t0) (at_ms (t0 + n * msPerDay)) = true).
Proof.
  intros Hsave Hr Hs.
  unfold save in Hsave.
  destruct (validate this) eqn:V; [| discriminate].
  injection Hsave as <-.
  apply validate_nil_iff in V.
  destruct V as (_ & _ & _ & (f & Ef & Hf) & _).
  assert (step : forall n, 0 < n <= 365 ->
            renewalPeriodAt (frequency this) = Some n ->
            renewalDate (fst (preSave tz now this))
            = Some (mkDate (TimeClip (UTC tz (LocalTime tz t0 + n * msPerDay))))
            /\ (tz (LocalTime tz t0 + n * msPerDay) false = tz t0 true ->
                - maxTime <= t0 <= maxTime - 365 * msPerDay ->
                renewalDate (fst (preSave tz now this))
                = Some (at_ms (t0 + n * msPerDay))
                /\ lt (at_ms t0) (at_ms (t0 + n * msPerDay)) = true)).
  { intros n Hn Hp.
    pose proof (SubscriptionFacts.preSave_unset tz now t0 n this Hr Hs Hp) as E.
    split; [exact E |].
    intros Hz Hrange. split.
    - rewrite E, (JsDateFacts.UTC_LocalTime_plus tz t0 (n * msPerDay) Hz).
      rewrite JsDateFacts.TimeClip_in_range; [reflexivity |].
      unfold msPerDay in *. lia.
    - unfold lt, msPerDay. cbn. apply Z.ltb_lt. lia. }
  cbn in Hf.
  destruct Hf as [<- | [<- | [<- | [<- | []]]]].
  - exists "daily", 1. destruct (step 1) as [H1 H2];
      [lia | rewrite Ef; reflexivity |]. cbn [In renewalPeriod]. auto.
  - exists "weekly", 7. destruct (step 7) as [H1 H2];
      [lia | rewrite Ef; reflexivity |]. cbn [In renewalPeriod]. auto 6.
  - exists "monthly", 30. destruct (step 30) as [H1 H2];
      [lia | rewrite Ef; reflexivity |]. cbn [In renewalPeriod]. auto 7.
  - exists "yearly", 365. destruct (step 365) as [H1 H2];
      [lia | rewrite Ef; reflexivity |]. cbn [In renewalPeriod]. auto 8.
Qed.

Lemma save_sets_renewal_witness :
  exists f n,
    frequency Samples2.winterStart = Some f
    /\ In (f, n) renewalPeriod
    /\ renewalDate (fst (preSave Samples2.newYork 1704067200000
                          Samples2.winterStart))
       = Some (mkDate (TimeClip (UTC Samples2.newYork
                 (LocalTime Samples2.newYork 1707955200000 + n * msPerDay)))).
Proof.
  destruct (save_sets_renewal Samples2.newYork 1704067200000 1707955200000
              Samples2.winterStart
              (fst (preSave Samples2.newYork 1704067200000
                      Samples2.winterStart)))
    as (f & n & Hf & Hin & Hd & _).
  - vm_compute; reflexivity.
  - reflexivity.
  - reflexivity.
  - exists f, n. repeat split; assumption.
Defined.

End SubscriptionMore.

(** ** More on registration and login *)

Module AuthMore.

Import Auth.

Lemma eqOpt_eq (a b : option string) : User.eqOpt a b = true <-> a = b.
Proof.
  destruct a as [x |], b as [y |]; cbn; try (split; congruence).
  rewrite String.eqb_eq. split; congruence.
Qed.

Lemma findOne_Some (users : User.Collection) (q : option string) (u : User.t) :
  User.findOne users q = Some u ->
  In u users /\ User.email u = User.setEmail q.
Proof.
  intros H. apply find_some in H as [Hin He].
  split; [exact Hin | apply eqOpt_eq, He].
Qed.

Lemma findOne_None (users : User.Collection) (q : option string) :
  User.findOne users q = None ->
  forall u, In u users -> User.email u <> User.setEmail q.
Proof.
  intros H u Hin E.
  pose proof (find_none _ _ H u Hin) as F. cbn in F.
  apply eqOpt_eq in E. congruence.
Qed.

(** A collection that holds a user with the email answers the lookup. *)
Lemma findOne_finds (users : User.Collection) (q : option string) (u : User.t) :
  In u users -> User.email u = User.setEmail q ->
  exists v, User.findOne users q = Some v.
Proof.
  intros Hin E.
  destruct (User.findOne users q) as [v |] eqn:F; [exists v; reflexivity |].
  exfalso. exact (findOne_None users q F u Hin E).
Qed.

Lemma findOne_app_new (users : User.Collection) (q : option string)
    (doc : User.t) :
  User.findOne users q = None ->
  User.email doc = User.setEmail q ->
  User.findOne (users ++ [doc])%list q = Some doc.
Proof.
  intros F E. unfold User.findOne in *.
  induction users as [| u users IH]; cbn in *.
  - apply eqOpt_eq in E. rewrite E. reflexivity.
  - destruct (User.eqOpt (User.email u) (User.setEmail q)); [discriminate |].
    apply IH, F.
Qed.

Section WithCollaborators.

Context {hasher : PasswordHasher} {tokens : TokenService}.

(** Inversion of a registration answered 201. *)
Lemma signup_created_inv (salt : string) (newId : ObjectId) (now : Z)
    (body : Body) (users : User.Collection) (r : Response) :
  reply (signup salt newId now body users) = Responded r ->
  statusCode r = 201 ->
  exists plain token,
    password body = Some plain
    /\ User.findOne users (email body) = None
    /\ User.validate (Spec.newDoc salt newId now body plain) = []
    /\ db (signup salt newId now body users)
       = (users ++ [Spec.newDoc salt newId now body plain])%list
    /\ session (signup salt newId now body users)
       = [StartSession; StartTransaction; CommitTransaction; EndSession]
    /\ jwt_sign newId = inr token
    /\ json r
       = JObj [("message", JStr "User created successfully");
               ("user", User.toJSON (Spec.newDoc salt newId now body plain));
               ("token", JStr token);
               ("success", JBool true)].
Proof.
  unfold signup, Spec.newDoc.
  destruct (User.findOne users (email body)) eqn:F.
  { cbn. intros H. injection H as <-. cbn. discriminate. }
  destruct (password body) as [plain |]; [| discriminate].
  cbn [hash bind]. unfold User.create.
  destruct (User.validate _) eqn:V; [| discriminate].
  destruct (existsb _ users); [discriminate |].
  cbn [bind User._id].
  destruct (jwt_sign newId) as [e | token] eqn:S; [discriminate |].
  cbn. intros H _. injection H as <-.
  exists plain, token. repeat split. exact V.
Qed.

(** A registration answered 201 found no user with the email, stored one
    new document at the end of the collection, with the trimmed name, the
    lower-cased and trimmed email and the hash of the password, which passes
    the schema's validation; it committed and ended the session and answers
    with the token signed for the new identifier. *)
Theorem signup_created (salt : string) (newId : ObjectId) (now : Z)
    (body : Body) (users : User.Collection) (r : Response) :
  reply (signup salt newId now body users) = Responded r ->
  statusCode r = 201 ->
  exists plain token,
    password body = Some plain
    /\ User.findOne users (email body) = None
    /\ User.validate (Spec.newDoc salt newId now body plain) = []
    /\ db (signup salt newId now body users)
       = (users ++ [Spec.newDoc salt newId now body plain])%list
    /\ session (signup salt newId now body users)
       = [StartSession; StartTransaction; CommitTransaction; EndSession]
    /\ jwt_sign newId = inr token
    /\ json r
       = JObj [("message", JStr "User created successfully");
               ("user", User.toJSON (Spec.newDoc salt newId now body plain));
               ("token", JStr token);
               ("success", JBool true)].
Proof.
  apply signup_created_inv.
Qed.

(** A registration that ends in an error has aborted and ended the session
    and has stored nothing, at whatever step the error was thrown. *)
Theorem signup_error_rolls_back (salt : string) (newId : ObjectId) (now : Z)
    (body : Body) (users : User.Collection) (e : Error) :
  reply (signup salt newId now body users) = NextError e ->
  db (signup salt newId now body users) = users
  /\ session (signup salt newId now body users)
     = [StartSession; StartTransaction; AbortTransaction; EndSession].
Proof.
  unfold signup.
  destruct (User.findOne users (email body)); [discriminate |].
  destruct (hash (password body) salt) as [err | h]; [split; reflexivity |].
  cbn [bind]. unfold User.create.
  destruct (User.validate _); [| split; reflexivity].
  destruct (existsb _ users); [split; reflexivity |].
  cbn [bind].
  destruct (jwt_sign _) as [err | token]; [split; reflexivity | discriminate].
Qed.

(** Registration keeps the emails of the collection distinct. *)
Theorem signup_keeps_emails_unique (salt : string) (newId : ObjectId)
    (now : Z) (body : Body) (users : User.Collection) :
  NoDup (map User.email users) ->
  NoDup (map User.email (db (signup salt newId now body users))).
Proof.
  intros Hnd.
  destruct (AuthFacts.signup_db salt newId now body users)
    as [-> | (newUser & r & E & Hr & Hs)]; [exact Hnd |].
  destruct (signup_created_inv salt newId now body users r Hr Hs)
    as (plain & token & _ & F & _ & E' & _).
  rewrite E'. rewrite map_app. cbn [map].
  rewrite <- (rev_involutive (map User.email users ++ _)%list).
  apply NoDup_rev. rewrite rev_app_distr. cbn. constructor.
  - rewrite <- in_rev. intros Hin. apply in_map_iff in Hin as (u & Eu & Hu).
    exact (findOne_None users (email body) F u Hu Eu).
  - apply NoDup_rev. exact Hnd.
Qed.

(** Once a registration has succeeded, a later registration whose email is
    the same up to letter case and surrounding white space is answered 400
    "User already exists" and stores nothing, on any collection that still
    holds the documents of the first. *)
Theorem signup_then_duplicate (salt salt' : string) (newId newId' : ObjectId)
    (now now' : Z) (body body' : Body) (users users' : User.Collection)
    (r : Response) :
  reply (signup salt newId now body users) = Responded r ->
  statusCode r = 201 ->
  (forall u, In u (db (signup salt newId now body users)) -> In u users') ->
  User.setEmail (email body') = User.setEmail (email body) ->
  reply (signup salt' newId' now' body' users')
  = Responded (mkResponse 400 (JObj [("message", JStr "User already exists")]))
  /\ db (signup salt' newId' now' body' users') = users'.
Proof.
  intros Hr Hs Hsub He.
  destruct (signup_created_inv salt newId now body users r Hr Hs)
    as (plain & token & _ & _ & _ & E & _).
  destruct (findOne_finds users' (email body')
              (Spec.newDoc salt newId now body plain)) as [v Hv].
  - apply Hsub. rewrite E. apply in_or_app. right. left. reflexivity.
  - cbn. symmetry. exact He.
  - unfold signup. rewrite Hv. split; reflexivity.
Qed.

(** After a registration, a login with the same email (up to letter case
    and surrounding white space) is answered 200 with a token for the new
    user when the hasher accepts the password against the stored hash, and
    400 "Invalid password" when it does not. *)
Theorem signup_then_signin (salt : string) (newId : ObjectId) (now : Z)
    (body login : Body) (users : User.Collection) (r : Response)
    (plain attempt : string) :
  reply (signup salt newId now body users) = Responded r ->
  statusCode r = 201 ->
  password body = Some plain ->
  User.setEmail (email login) = User.setEmail (email body) ->
  password login = Some attempt ->
  let users' := db (signup salt newId now body users) in
  (bcrypt_compare attempt (bcrypt_hash plain salt) = true ->
   exists token user,
     jwt_sign newId = inr token
     /\ reply (signin login users')
        = Responded (mkResponse 200
            (JObj [("message", JStr "User signed in successfully");
                   ("data", JObj [("user", user);
                                  ("token", JStr token);
                                  ("success", JBool true)])])))
  /\ (bcrypt_compare attempt (bcrypt_hash plain salt) = false ->
      reply (signin login users')
      = Responded (mkResponse 400 (JObj [("message", JStr "Invalid password")]))).
Proof.
  intros Hr Hs Hp He Ha users'.
  destruct (signup_created_inv salt newId now body users r Hr Hs)
    as (plain' & token & Hp' & F & _ & E & _ & S & _).
  rewrite Hp in Hp'. injection Hp' as <-.
  assert (Hfind : User.findOne users' (email login)
                  = Some (Spec.newDoc salt newId now body plain)).
  { unfold users'. rewrite E. unfold User.findOne. rewrite He.
    apply findOne_app_new; [exact F | reflexivity]. }
  split; intros Hc; unfold signin; rewrite Hfind, Ha; unfold Spec.newDoc; cbn [compare bind User.password];
    rewrite Hc; cbn [negb bind User._id].
  - exists token. eexists. split; [exact S |]. rewrite S. reflexivity.
  - reflexivity.
Qed.

(** A login is answered 200 only when the lookup found a stored user, the
    request has a password and the hasher accepts it against that user's
    stored hash; the answer carries the token signed for that user and the
    whole user document, hash included. *)
Theorem signin_ok (body : Body) (users : User.Collection) (r : Response) :
  reply (signin body users) = Responded r ->
  statusCode r = 200 ->
  exists u plain h token,
    User.findOne users (email body) = Some u
    /\ In u users
    /\ password body = Some plain
    /\ User.password u = Some h
    /\ bcrypt_compare plain h = true
    /\ jwt_sign (User._id u) = inr token
    /\ json r
       = JObj [("message", JStr "User signed in successfully");
               ("data", JObj [("user", User.toJSON u);
                              ("token", JStr token);
                              ("success", JBool true)])]
    /\ field "password" (User.toJSON u) = Some (JStr h).
Proof.
  unfold signin.
  destruct (User.findOne users (email body)) as [u |] eqn:F.
  2: { cbn. intros H. injection H as <-. cbn. discriminate. }
  pose proof (findOne_Some _ _ _ F) as [Hin _].
  unfold compare.
  destruct (password body) as [plain |], (User.password u) as [h |] eqn:Hh;
    try discriminate.
  cbn [bind].
  destruct (bcrypt_compare plain h) eqn:C; cbn [negb].
  2: { cbn. intros H. injection H as <-. cbn. discriminate. }
  destruct (jwt_sign (User._id u)) as [e | token] eqn:S; [discriminate |].
  cbn [bind reply]. intros H _. injection H as <-.
  exists u, plain, h, token.
  repeat (split; [first [assumption | reflexivity] |]).
  rewrite AuthFacts.toJSON_password, Hh. reflexivity.
Qed.

(** Login never writes to the collection and never commits or ends the
    session it opened. *)
Theorem signin_read_only (body : Body) (users : User.Collection) :
  db (signin body users) = users
  /\ ~ In CommitTransaction (session (signin body users))
  /\ ~ In EndSession (session (signin body users)).
Proof.
  unfold signin.
  destruct (User.findOne users (email body)) as [u |].
  - destruct (compare (password body) (User.password u)) as [e | ok];
      cbn [bind].
    + cbn. repeat split; intros [H | [H | [H | []]]]; discriminate.
    + destruct ok; cbn [negb].
      * destruct (jwt_sign (User._id u)); cbn; repeat split;
          intros H; repeat destruct H as [H | H]; try discriminate; destruct H.
      * cbn. repeat split; intros [H | [H | []]]; discriminate.
  - cbn. repeat split; intros [H | [H | []]]; discriminate.
Qed.

(** The two refusals of a login have different messages: "User not found"
    when no user has the email, "Invalid password" when one has it and the
    hasher refuses the password. *)
Theorem signin_refusals (body : Body) (users : User.Collection) :
  (User.findOne users (email body) = None ->
   reply (signin body users)
   = Responded (mkResponse 400 (JObj [("message", JStr "User not found")])))
  /\ (forall u plain h,
        User.findOne users (email body) = Some u ->
        password body = Some plain ->
        User.password u = Some h ->
        bcrypt_compare plain h = false ->
        reply (signin body users)
        = Responded (mkResponse 400 (JObj [("message", JStr "Invalid password")]))).
Proof.
  split.
  - intros F. unfold signin. rewrite F. reflexivity.
  - intros u plain h F Hp Hh C. unfold signin. rewrite F, Hp, Hh.
    cbn [compare bind]. rewrite C. reflexivity.
Qed.

(** A registration without password, name or email: without password the
    hasher throws and the error boundary answers 500; without name or email
    the schema refuses the document with its "required" messages. *)
Theorem signup_missing_fields (salt : string) (newId : ObjectId) (now : Z)
    (body : Body) (users : User.Collection) :
  User.findOne users (email body) = None ->
  (password body = None ->
   reply (signup salt newId now body users)
   = NextError (ThrownError "Illegal arguments: undefined, string")
   /\ statusCode
        (errorMiddleware (ThrownError "Illegal arguments: undefined, string"))
      = 500)
  /\ (forall plain,
        password body = Some plain ->
        name body = None \/ email body = None ->
        exists errors,
          reply (signup salt newId now body users)
          = NextError (ValidationError errors)
          /\ (name body = None -> In ("name", "username is required") errors)
          /\ (email body = None -> In ("email", "email is required") errors)).
Proof.
  intros F. split.
  - intros Hp. unfold signup. rewrite F, Hp. split; reflexivity.
  - intros plain Hp Hmiss. unfold signup. rewrite F, Hp.
    cbn [hash bind]. unfold User.create.
    match goal with
    | |- context [User.validate ?d] => set (doc := d)
    end.
    assert (Hn : name body = None ->
                 In ("name", "username is required") (User.validate doc)).
    { intros E. unfold User.validate, doc. cbn [User.name]. rewrite E.
      apply in_or_app. left. left. reflexivity. }
    assert (He : email body = None ->
                 In ("email", "email is required") (User.validate doc)).
    { intros E. unfold User.validate, doc. cbn [User.email]. rewrite E.
      apply in_or_app. right. apply in_or_app. left. left. reflexivity. }
    destruct (User.validate doc) as [| e errors].
    + destruct Hmiss as [E | E]; [destruct (Hn E) | destruct (He E)].
    + exists (e :: errors). cbn. repeat split; assumption.
Qed.

End WithCollaborators.

End AuthMore.

(** ** More on the access guard, the profile handlers and the error boundary *)

Module UsersMore.

Import Users.

Lemma findById_Some (users : User.Collection) (i : string) (u : User.t) :
  User.findById users (Some i) = inr (Some u) ->
  User.isObjectId i = true
  /\ In u users
  /\ User._id u = JsString.toLowerCase i.
Proof.
  unfold User.findById.
  destruct (User.isObjectId i); [| discriminate].
  intros H. injection H as H. apply find_some in H as [Hin He].
  apply String.eqb_eq in He. auto.
Qed.

Lemma findById_None (users : User.Collection) (i : string) :
  User.isObjectId i = true ->
  (forall u, In u users -> User._id u <> JsString.toLowerCase i) ->
  User.findById users (Some i) = inr None.
Proof.
  intros Hi Hno. unfold User.findById. rewrite Hi. f_equal.
  destruct (find _ users) as [u |] eqn:F; [| reflexivity].
  apply find_some in F as [Hin He]. apply String.eqb_eq in He.
  destruct (Hno u Hin He).
Qed.

(** [split] on a blank after a prefix that has none. *)
Lemma split_blank (a r : string) :
  Spec.noBlank a ->
  JsString.split " " (a ++ String " " r) = a :: JsString.split " " r.
Proof.
  induction a as [| c a IH]; intros Hn.
  - reflexivity.
  - cbn [append JsString.split].
    destruct (Ascii.eqb_spec c " "%char) as [E | _].
    + destruct (Hn c); [left; reflexivity | exact E].
    + rewrite IH; [reflexivity |].
      intros x Hx. apply Hn. right. exact Hx.
Qed.

Lemma split_last (a : string) :
  Spec.noBlank a -> JsString.split " " a = [a].
Proof.
  induction a as [| c a IH]; intros Hn.
  - reflexivity.
  - cbn [JsString.split].
    destruct (Ascii.eqb_spec c " "%char) as [E | _].
    + destruct (Hn c); [left; reflexivity | exact E].
    + rewrite IH; [reflexivity |].
      intros x Hx. apply Hn. right. exact Hx.
Qed.

Section WithCollaborators.

Context {tokens : TokenService}.

(** The token of a header of the form [Bearer.. token ..]. *)
Lemma bearerToken_of_header (req : Request) (x token rest : string) :
  authorization req
  = Some ("Bearer" ++ x ++ String " " (token ++ rest))%string ->
  Spec.noBlank x -> Spec.noBlank token ->
  rest = EmptyString \/ (exists r, rest = String " " r) ->
  bearerToken req = Some token.
Proof.
  intros Ha Hx Ht Hrest. unfold bearerToken. rewrite Ha.
  assert (P : Validate.nonEmpty
                ("Bearer" ++ x ++ String " " (token ++ rest))
              && JsString.startsWith
                   ("Bearer" ++ x ++ String " " (token ++ rest)) "Bearer"
              = true).
  { cbn. destruct (x ++ String " " (token ++ rest))%string; reflexivity. }
  rewrite P.
  change ("Bearer" ++ x ++ String " " (token ++ rest))%string
    with (("Bearer" ++ x) ++ String " " (token ++ rest))%string.
  rewrite split_blank.
  - cbn [nth_error]. destruct Hrest as [-> | (r & ->)].
    + rewrite RegexFacts.append_empty, split_last by exact Ht. reflexivity.
    + rewrite split_blank by exact Ht. reflexivity.
  - intros c Hc. cbn in Hc.
    repeat (destruct Hc as [<- | Hc]; [discriminate |]).
    apply Hx, Hc.
Qed.

(** The guard only asks that the header begins with "Bearer": whatever
    follows these letters up to the first blank is ignored, the token is
    what stands between the first and the second blank, and what comes
    after a second blank is ignored too. *)
Theorem bearerToken_scheme (req : Request) (x token rest : string) :
  authorization req
  = Some ("Bearer" ++ x ++ String " " (token ++ rest))%string ->
  Spec.noBlank x -> Spec.noBlank token ->
  rest = EmptyString \/ (exists r, rest = String " " r) ->
  bearerToken req = Some token.
Proof.
  apply bearerToken_of_header.
Qed.

(** Inversion of a request the guard lets through. *)
Lemma authorize_next_member (users : User.Collection)
    (req req' : Request) :
  authorize users req = Next req' ->
  exists token id u,
    bearerToken req = Some token
    /\ jwt_verify token = inr id
    /\ In u users
    /\ User._id u = JsString.toLowerCase id
    /\ user req' = Some (User.selectMinusPassword u)
    /\ User.password (User.selectMinusPassword u) = None
    /\ authorization req' = authorization req
    /\ params_id req' = params_id req.
Proof.
  intros H.
  destruct (UsersFacts.authorize_next_inv users req req' H)
    as (token & id & u & Ht & Hv & Hf & ->).
  apply findById_Some in Hf as (_ & Hin & Hid).
  exists token, id, u. repeat split; assumption.
Qed.

(** A request the guard lets through is the request it got with [req.user]
    set to a user of the collection, without password, whose identifier is
    the one the token verifies to. *)
Theorem authorize_attaches_member (users : User.Collection)
    (req req' : Request) :
  authorize users req = Next req' ->
  exists token id u,
    bearerToken req = Some token
    /\ jwt_verify token = inr id
    /\ In u users
    /\ User._id u = JsString.toLowerCase id
    /\ user req' = Some (User.selectMinusPassword u)
    /\ User.password (User.selectMinusPassword u) = None
    /\ authorization req' = authorization req
    /\ params_id req' = params_id req.
Proof.
  apply authorize_next_member.
Qed.

(** The handler of [GET /:id] never sends a password: whatever user object
    it answers with has no [password] key. *)
Theorem getSingleUser_no_password (users : User.Collection) (req : Request)
    (r : Response) (data userJson : Json) :
  getSingleUser users req = Responded r ->
  field "data" (json r) = Some data ->
  field "user" data = Some userJson ->
  field "password" userJson = None.
Proof.
  unfold getSingleUser, catchNext.
  destruct (User.findById users (params_id req)) as [e | [u |]];
    cbn [bind option_map]; try discriminate.
  - intros H. injection H as <-. cbn. intros H1. injection H1 as <-.
    cbn. intros H2. injection H2 as <-.
    apply AuthFacts.toJSON_password.
  - intros H. injection H as <-. cbn. discriminate.
Qed.

(** [GET /:id] with an identifier that is no ObjectId ends in a [CastError],
    which the error boundary answers 404; with a well-formed identifier that
    no user has, the handler answers 404 "User not found" itself. *)
Theorem getSingleUser_not_found (users : User.Collection) (req : Request)
    (i : string) :
  params_id req = Some i ->
  (User.isObjectId i = false ->
   getSingleUser users req = NextError (CastError "_id" i)
   /\ errorMiddleware (CastError "_id" i)
      = mkResponse 404
          (JObj [("success", JBool false);
                 ("message",
                  JStr ("Resource not found. Invalid: _id: " ++ i))]))
  /\ (User.isObjectId i = true ->
      (forall u, In u users -> User._id u <> JsString.toLowerCase i) ->
      getSingleUser users req
      = Responded (mkResponse 404
          (JObj [("message", JStr "User not found");
                 ("success", JBool false)]))).
Proof.
  intros Hp. split.
  - intros Hi. split.
    + unfold getSingleUser, User.findById. rewrite Hp, Hi. reflexivity.
    + reflexivity.
  - intros Hi Hno. unfold getSingleUser.
    rewrite Hp, (findById_None users i Hi Hno). reflexivity.
Qed.

(** The route [GET /:id] answers 200 only to a request whose header carries
    a token that verifies to the identifier of a user of the collection. *)
Theorem GetById_guarded (users : User.Collection) (req : Request)
    (r : Response) :
  handle GetById users req = Responded r ->
  statusCode r = 200 ->
  exists token id u,
    bearerToken req = Some token
    /\ jwt_verify token = inr id
    /\ In u users
    /\ User._id u = JsString.toLowerCase id.
Proof.
  unfold handle, userRouter, run.
  destruct (authorize users req) as [r' | req' | e |] eqn:A.
  - intros H. injection H as <-. revert A.
    unfold authorize, catchNext.
    destruct (bearerToken req) as [[| c t] |];
      try (intros H; injection H as <-; cbn; discriminate).
    destruct (jwt_verify _); cbn [bind]; [discriminate |].
    destruct (User.findById users _) as [e | [u |]]; cbn [bind option_map];
      try discriminate.
    intros H. injection H as <-. cbn. discriminate.
  - intros _ _.
    destruct (authorize_next_member users req req' A)
      as (token & id & u & Ht & Hv & Hin & Hid & _).
    exists token, id, u. auto.
  - discriminate.
  - discriminate.
Qed.

(** The profile handler answers 200 only when [req.user] is set and a user
    with its identifier is in the collection, and then sends that stored
    document, not the one attached to the request. *)
Theorem getUserProfile_ok (users : User.Collection) (req : Request)
    (r : Response) :
  getUserProfile users req = Responded r ->
  statusCode r = 200 ->
  exists attached stored,
    user req = Some attached
    /\ In stored users
    /\ User._id stored = JsString.toLowerCase (User._id attached)
    /\ json r
       = JObj [("message", JStr "User profile fetched successfully");
               ("data", JObj [("user", User.toJSON stored);
                              ("success", JBool true)])].
Proof.
  unfold getUserProfile, catchNext.
  destruct (user req) as [a |].
  2: { intros H. injection H as <-. cbn. discriminate. }
  destruct (Validate.nonEmpty (User._id a)).
  2: { intros H. injection H as <-. cbn. discriminate. }
  destruct (User.findById users (Some (User._id a))) as [e | [s |]] eqn:F;
    cbn [bind]; try discriminate.
  - intros H _. injection H as <-.
    apply findById_Some in F as (_ & Hin & Hid).
    exists a, s. repeat split; assumption.
  - intros H. injection H as <-. cbn. discriminate.
Qed.

End WithCollaborators.


End UsersMore.

(** ** The user schema and its setters *)

Module UserMore.

Import JsString.

(** What the user schema accepts: a name of 3 to 20 characters, an email
    that matches the email rule and a password that matches the password
    rule. *)
Theorem user_validate_accepts (u : User.t) :
  User.validate u = [] <->
  (exists n, User.name u = Some n /\ 3 <= len n <= 20)
  /\ (exists e, User.email u = Some e /\ emailRegex e = true)
  /\ (exists p, User.password u = Some p /\ passwordRegex p = true).
Proof.
  unfold User.validate.
  rewrite !SubscriptionMore.app_nil_iff, !SubscriptionMore.path_nil_iff.
  split.
  - intros (Hn & He & Hp).
    repeat match goal with
           | H : Forall _ (_ :: _) |- _ =>
               apply Forall_cons_iff in H; destruct H as [? H]
           end.
    cbn [fst Validate.required Validate.check] in *.
    repeat split.
    + destruct (User.name u) as [n |]; [| discriminate].
      exists n. unfold Validate.minlength, Validate.maxlength in *.
      split; [reflexivity | lia].
    + destruct (User.email u) as [e |]; [| discriminate]. exists e. auto.
    + destruct (User.password u) as [p |]; [| discriminate]. exists p. auto.
  - intros ((n & -> & Hn) & (e & -> & He) & (p & -> & Hp)).
    repeat split; repeat constructor; cbn;
      unfold Validate.minlength, Validate.maxlength; try assumption; try lia.
    + destruct n; [cbn in Hn; lia | reflexivity].
    + destruct e; [discriminate He | reflexivity].
    + destruct p; [discriminate Hp | reflexivity].
Qed.

Lemma assoc_app {A : Type} (k : string) (l1 l2 : list (string * A)) :
  assoc k (l1 ++ l2)
  = match assoc k l1 with Some v => Some v | None => assoc k l2 end.
Proof.
  induction l1 as [| [k' v] l1 IH]; cbn; [reflexivity |].
  destruct (String.eqb k k'); [reflexivity | exact IH].
Qed.

Lemma assoc_path {A : Type} (k k' : string)
    (vs : list (Validate.Validator A)) (v : option A) :
  assoc k (Validate.path k' vs v)
  = if String.eqb k k' then Validate.firstFailure vs v else None.
Proof.
  unfold Validate.path.
  destruct (Validate.firstFailure vs v); cbn;
    destruct (String.eqb k k'); reflexivity.
Qed.

(** The error of the [name] path, by the length of the name: "required"
    for a missing or empty name, then the lower bound 3, then the upper
    bound 20. *)
Theorem name_error (u : User.t) :
  assoc "name" (User.validate u)
  = match User.name u with
    | None => Some "username is required"
    | Some n =>
        if isEmpty n then Some "username is required"
        else if len n <? 3
             then Some "username must be at least 3 characters long"
        else if 20 <? len n
             then Some "username must be less than 20 characters long"
        else None
    end.
Proof.
  unfold User.validate.
  rewrite !assoc_app, !assoc_path.
  change (String.eqb "name" "name") with true.
  change (String.eqb "name" "email") with false.
  change (String.eqb "name" "password") with false.
  cbv iota.
  destruct (User.name u) as [n |]; [| reflexivity].
  cbn [Validate.firstFailure Validate.required Validate.check fst].
  unfold Validate.nonEmpty, Validate.minlength, Validate.maxlength.
  destruct (isEmpty n); cbn [negb]; [reflexivity |].
  rewrite Z.leb_antisym. destruct (len n <? 3); cbn [negb]; [reflexivity |].
  rewrite Z.leb_antisym. destruct (20 <? len n); reflexivity.
Qed.

Lemma trimStart_blank (s : string) :
  forallb isWhiteSpace s = true -> trimStart s = EmptyString.
Proof.
  induction s as [| c s IH]; cbn; [reflexivity |].
  intros H. apply andb_true_iff in H as [Hc Hs]. rewrite Hc. apply IH, Hs.
Qed.

(** A name made of white space only is trimmed to the empty string, which
    the schema refuses as a missing name; nothing is stored. *)
Theorem create_blank_name (db : User.Collection) (id : ObjectId) (now : Z)
    (n : string) (email password : option string) :
  forallb isWhiteSpace n = true ->
  exists errors,
    User.create db id now (Some n) email password
    = inl (ValidationError errors)
    /\ In ("name", "username is required") errors.
Proof.
  intros H. unfold User.create.
  match goal with
  | |- context [User.validate ?d] => set (doc := d)
  end.
  assert (Hin : In ("name", "username is required") (User.validate doc)).
  { unfold User.validate, doc. cbn [User.name User.setName option_map].
    unfold trim. rewrite (trimStart_blank n H). cbn.
    left. reflexivity. }
  destruct (User.validate doc) as [| e errors]; [destruct Hin |].
  exists (e :: errors). split; [reflexivity | exact Hin].
Qed.

Lemma lowerChar_space (c : ascii) : isWhiteSpace (lowerChar c) = isWhiteSpace c.
Proof. destruct c as [[] [] [] [] [] [] [] []]; reflexivity. Qed.

Lemma lowerChar_twice (c : ascii) : lowerChar (lowerChar c) = lowerChar c.
Proof. destruct c as [[] [] [] [] [] [] [] []]; reflexivity. Qed.

Lemma toLowerCase_twice (s : string) :
  toLowerCase (toLowerCase s) = toLowerCase s.
Proof.
  induction s as [| c s IH]; cbn; [reflexivity |].
  rewrite lowerChar_twice, IH. reflexivity.
Qed.

Lemma toLowerCase_trimStart (s : string) :
  toLowerCase (trimStart s) = trimStart (toLowerCase s).
Proof.
  induction s as [| c s IH]; cbn; [reflexivity |].
  rewrite lowerChar_space. destruct (isWhiteSpace c); [exact IH | reflexivity].
Qed.

Lemma isEmpty_toLowerCase (s : string) : isEmpty (toLowerCase s) = isEmpty s.
Proof. destruct s; reflexivity. Qed.

Lemma toLowerCase_trimEnd (s : string) :
  toLowerCase (trimEnd s) = trimEnd (toLowerCase s).
Proof.
  induction s as [| c s IH]; cbn; [reflexivity |].
  rewrite lowerChar_space, <- IH, isEmpty_toLowerCase.
  destruct (isWhiteSpace c && isEmpty (trimEnd s)); reflexivity.
Qed.

Lemma trimEnd_twice (s : string) : trimEnd (trimEnd s) = trimEnd s.
Proof.
  induction s as [| c s IH]; cbn; [reflexivity |].
  destruct (isWhiteSpace c && isEmpty (trimEnd s)) eqn:E; [reflexivity |].
  cbn. rewrite IH, E. reflexivity.
Qed.

Lemma trimStart_head (s : string) :
  trimStart s = EmptyString
  \/ exists c r, trimStart s = String c r /\ isWhiteSpace c = false.
Proof.
  induction s as [| c s IH]; cbn; [left; reflexivity |].
  destruct (isWhiteSpace c) eqn:E; [exact IH |].
  right. exists c, s. auto.
Qed.

Lemma trim_twice (s : string) : trim (trim s) = trim s.
Proof.
  unfold trim.
  destruct (trimStart_head s) as [-> | (c & r & -> & Hc)]; [reflexivity |].
  assert (H : trimStart (trimEnd (String c r)) = trimEnd (String c r)).
  { cbn. rewrite Hc. cbn. rewrite Hc. reflexivity. }
  rewrite H. apply trimEnd_twice.
Qed.

(** The two setters of [email] commute, and an email that went through them
    is left as it is by them: a stored email is its own normal form. *)
Theorem setEmail_normal_form (q : option string) :
  User.setEmail (User.setEmail q) = User.setEmail q
  /\ User.setEmail q = option_map (fun s => toLowerCase (trim s)) q.
Proof.
  assert (C : forall s, trim (toLowerCase s) = toLowerCase (trim s)).
  { intros s. unfold trim.
    rewrite toLowerCase_trimEnd, toLowerCase_trimStart. reflexivity. }
  destruct q as [s |]; unfold User.setEmail, option_map; [| split; reflexivity].
  split; [| rewrite C; reflexivity]. f_equal.
  rewrite (C (trim (toLowerCase s))), trim_twice, <- C, toLowerCase_twice.
  reflexivity.
Qed.

(** Every path has at most one error. *)
Theorem one_error_per_path (u : User.t) :
  NoDup (map fst (User.validate u)).
Proof.
  unfold User.validate, Validate.path.
  repeat match goal with
         | |- context [match Validate.firstFailure ?vs ?v with _ => _ end] =>
             destruct (Validate.firstFailure vs v)
         end; cbn; repeat constructor; cbn; intuition discriminate.
Qed.

End UserMore.

(** ** From registration to the guard *)

Module Journeys.

Import Auth.

Lemma find_app_new {A : Type} (p : A -> bool) (l : list A) (x : A) :
  (forall y, In y l -> p y = false) -> p x = true ->
  find p (l ++ [x]) = Some x.
Proof.
  intros Hl Hx. induction l as [| y l IH]; cbn.
  - rewrite Hx. reflexivity.
  - rewrite (Hl y) by (left; reflexivity).
    apply IH. intros z Hz. apply Hl. right. exact Hz.
Qed.

Section WithCollaborators.

Context {hasher : PasswordHasher} {tokens : TokenService}.

(** The token a registration answers with opens the guard: when the token
    service verifies the token it signed to the identifier it signed, the
    token has no blank, and the new identifier is a canonical ObjectId no
    other user has, a request with the header "Bearer <token>" passes the
    guard on the new collection, and the request that goes on has as
    [req.user] the new user, with the new identifier, the stored name and
    email and no password, and is otherwise the request that came in. *)
Theorem issued_token_passes_guard (salt : string) (newId : ObjectId)
    (now : Z) (body : Body) (users : User.Collection) (r : Response)
    (plain token : string) (req : Users.Request) :
  reply (signup salt newId now body users) = Responded r ->
  statusCode r = 201 ->
  password body = Some plain ->
  field "token" (json r) = Some (JStr token) ->
  jwt_verify token = inr newId ->
  token <> EmptyString ->
  Spec.noBlank token ->
  User.isObjectId newId = true ->
  JsString.toLowerCase newId = newId ->
  (forall u, In u users -> User._id u <> newId) ->
  Users.authorization req = Some ("Bearer " ++ token)%string ->
  exists req' attached,
    Users.authorize (db (signup salt newId now body users)) req = Next req'
    /\ Users.user req' = Some attached
    /\ User._id attached = newId
    /\ User.name attached = User.setName (name body)
    /\ User.email attached = User.setEmail (email body)
    /\ User.password attached = None
    /\ Users.authorization req' = Users.authorization req
    /\ Users.params_id req' = Users.params_id req.
Proof.
  intros Hr Hs Hp Htok Hv Hne Hnb Hid Hcanon Hfresh Hauth.
  destruct (AuthMore.signup_created_inv salt newId now body users r Hr Hs)
    as (plain' & token' & Hp' & _ & _ & E & _ & _ & Hjson).
  rewrite Hp in Hp'. injection Hp' as <-.
  rewrite Hjson in Htok. cbn in Htok. injection Htok as ->.
  assert (Hb : Users.bearerToken req = Some token).
  { apply (UsersMore.bearerToken_of_header req EmptyString token EmptyString).
    - rewrite Hauth, RegexFacts.append_empty. reflexivity.
    - intros c [].
    - exact Hnb.
    - left. reflexivity. }
  unfold Users.authorize. rewrite Hb.
  destruct token as [| c token]; [contradiction |].
  rewrite Hv. cbn [bind].
  unfold User.findById. rewrite Hid, Hcanon, E.
  rewrite (find_app_new _ users (Spec.newDoc salt newId now body plain)).
  - cbn [bind option_map Users.catchNext].
    exists (Users.set_user req
              (User.selectMinusPassword (Spec.newDoc salt newId now body plain))).
    exists (User.selectMinusPassword (Spec.newDoc salt newId now body plain)).
    repeat split.
  - intros u Hu. apply String.eqb_neq. apply Hfresh, Hu.
  - apply String.eqb_refl.
Qed.

End WithCollaborators.

End Journeys.

(** ** The added properties on the sample data *)

Module Scenarios2.

Import Samples Samples2.

#[local] Existing Instance Samples.hasher.
#[local] Existing Instance Samples.tokens.

Lemma preSave_keeps_valid_witness :
  Subscription.validate
    (fst (Subscription.preSave JsDate.utc 1710000000000 scenarioD)) = [].
Proof.
  apply (SubscriptionMore.preSave_keeps_valid JsDate.utc 1710000000000
           scenarioD).
  vm_compute; reflexivity.
Defined.

Lemma signup_created_witness :
  Auth.db (Auth.signup saltPlain aliceId 1704067200000 scenarioA []) = [alice].
Proof.
  destruct (AuthMore.signup_created saltPlain aliceId 1704067200000 scenarioA
              [] (mkResponse 201
                    (JObj [("message", JStr "User created successfully");
                           ("user", User.toJSON alice);
                           ("token", JStr "jwt.64f8a1b2c3d4e5f6a7b8c9d0");
                           ("success", JBool true)])))
    as (plain & token & Hp & _ & _ & Hdb & _);
    [vm_compute; reflexivity | reflexivity |].
  rewrite Hdb. vm_compute in Hp. injection Hp as <-. vm_compute; reflexivity.
Defined.

Lemma signup_error_rolls_back_witness :
  Auth.db (@Auth.signup Samples.hasher noSecret saltPlain aliceId
             1704067200000 scenarioA []) = [].
Proof.
  destruct (@AuthMore.signup_error_rolls_back Samples.hasher noSecret
              saltPlain aliceId 1704067200000 scenarioA []
              (ThrownError "secretOrPrivateKey must have a value"))
    as (H & _); [vm_compute; reflexivity | exact H].
Defined.

Lemma signup_keeps_emails_unique_witness :
  NoDup (map User.email
           (Auth.db (Auth.signup saltPlain bobId 1704067200000 bob [alice]))).
Proof.
  apply (AuthMore.signup_keeps_emails_unique saltPlain bobId 1704067200000
           bob [alice]).
  cbn. constructor; [intros [] | constructor].
Defined.

Lemma signup_then_duplicate_witness :
  Auth.reply (Auth.signup saltDotted bobId 1710000000000 sameEmail [alice])
  = Responded (mkResponse 400 (JObj [("message", JStr "User already exists")])).
Proof.
  destruct (AuthMore.signup_then_duplicate saltPlain saltDotted aliceId bobId
              1704067200000 1710000000000 scenarioA sameEmail [] [alice]
              (mkResponse 201
                 (JObj [("message", JStr "User created successfully");
                        ("user", User.toJSON alice);
                        ("token", JStr "jwt.64f8a1b2c3d4e5f6a7b8c9d0");
                        ("success", JBool true)])))
    as (H & _).
  - vm_compute; reflexivity.
  - reflexivity.
  - intros u Hu. vm_compute in Hu. exact Hu.
  - vm_compute; reflexivity.
  - exact H.
Defined.

Lemma signup_then_signin_witness :
  (exists payload,
     Auth.reply (Auth.signin sameEmail [alice])
     = Responded (mkResponse 200 payload))
  /\ Auth.reply (Auth.signin wrongPassword [alice])
     = Responded (mkResponse 400 (JObj [("message", JStr "Invalid password")])).
Proof.
  assert (Hdb : Auth.db (Auth.signup saltPlain aliceId 1704067200000
                           scenarioA []) = [alice])
    by (vm_compute; reflexivity).
  split.
  - destruct (AuthMore.signup_then_signin saltPlain aliceId 1704067200000
                scenarioA sameEmail []
                (mkResponse 201
                   (JObj [("message", JStr "User created successfully");
                          ("user", User.toJSON alice);
                          ("token", JStr "jwt.64f8a1b2c3d4e5f6a7b8c9d0");
                          ("success", JBool true)]))
                "password123" "password123") as (Hok & _);
      [vm_compute; reflexivity | reflexivity | reflexivity
       | vm_compute; reflexivity | reflexivity |].
    destruct Hok as (token & user & _ & H); [vm_compute; reflexivity |].
    rewrite Hdb in H. eexists. exact H.
  - destruct (AuthMore.signup_then_signin saltPlain aliceId 1704067200000
                scenarioA wrongPassword []
                (mkResponse 201
                   (JObj [("message", JStr "User created successfully");
                          ("user", User.toJSON alice);
                          ("token", JStr "jwt.64f8a1b2c3d4e5f6a7b8c9d0");
                          ("success", JBool true)]))
                "password123" "Password1!") as (_ & Hbad);
      [vm_compute; reflexivity | reflexivity | reflexivity
       | vm_compute; reflexivity | reflexivity |].
    rewrite Hdb in Hbad. apply Hbad. vm_compute; reflexivity.
Defined.

Lemma signin_ok_witness :
  exists u token,
    In u [alice]
    /\ jwt_sign (User._id u) = inr token
    /\ token = "jwt.64f8a1b2c3d4e5f6a7b8c9d0".
Proof.
  destruct (AuthMore.signin_ok scenarioA [alice]
              (mkResponse 200
                 (JObj [("message", JStr "User signed in successfully");
                        ("data",
                         JObj [("user", User.toJSON alice);
                               ("token", JStr "jwt.64f8a1b2c3d4e5f6a7b8c9d0");
                               ("success", JBool true)])])))
    as (u & plain & h & token & _ & Hin & _ & _ & _ & Hs & _);
    [vm_compute; reflexivity | reflexivity |].
  exists u, token. repeat split; try assumption.
  destruct Hin as [<- | []]. vm_compute in Hs. injection Hs as <-. reflexivity.
Defined.

Lemma signin_refusals_witness :
  Auth.reply (Auth.signin bob [alice])
  = Responded (mkResponse 400 (JObj [("message", JStr "User not found")]))
  /\ Auth.reply (Auth.signin wrongPassword [alice])
     = Responded (mkResponse 400 (JObj [("message", JStr "Invalid password")])).
Proof.
  split.
  - destruct (AuthMore.signin_refusals bob [alice]) as (H & _).
    apply H. vm_compute; reflexivity.
  - destruct (AuthMore.signin_refusals wrongPassword [alice]) as (_ & H).
    apply (H alice "Password1!"
             "$2a$10$fVH8e28OQRj9tqiDXs1e1uxpsjN0c7II7YPKXua2NAKYvM6iQk7dq");
      vm_compute; reflexivity.
Defined.

Lemma signup_missing_fields_witness :
  Auth.reply (Auth.signup saltPlain aliceId 1704067200000 noPassword [])
  = NextError (ThrownError "Illegal arguments: undefined, string")
  /\ exists errors,
       Auth.reply (Auth.signup saltPlain aliceId 1704067200000
                     wrongPassword [])
       = NextError (ValidationError errors)
       /\ In ("name", "username is required") errors.
Proof.
  split.
  - destruct (AuthMore.signup_missing_fields saltPlain aliceId 1704067200000
                noPassword []) as (H & _); [reflexivity |].
    destruct H as (H & _); [reflexivity | exact H].
  - destruct (AuthMore.signup_missing_fields saltPlain aliceId 1704067200000
                wrongPassword []) as (_ & H); [reflexivity |].
    destruct (H "Password1!") as (errors & Hr & Hn & _);
      [reflexivity | left; reflexivity |].
    exists errors. split; [exact Hr | apply Hn; reflexivity].
Defined.

Lemma bearerToken_scheme_witness :
  Users.bearerToken padded = Some "abc.def".
Proof.
  apply (UsersMore.bearerToken_scheme padded "XYZ" "abc.def" " trailing words").
  - reflexivity.
  - intros c Hc. cbn in Hc.
    repeat (destruct Hc as [<- | Hc]; [discriminate |]). destruct Hc.
  - intros c Hc. cbn in Hc.
    repeat (destruct Hc as [<- | Hc]; [discriminate |]). destruct Hc.
  - right. eexists. reflexivity.
Defined.

Lemma authorize_attaches_member_witness :
  exists u, In u [alice] /\ User._id u = aliceId.
Proof.
  destruct (UsersMore.authorize_attaches_member [alice] withToken
              (Users.set_user withToken (User.selectMinusPassword alice)))
    as (token & id & u & Ht & Hv & Hin & Hid & _);
    [vm_compute; reflexivity |].
  exists u. split; [exact Hin |].
  destruct Hin as [<- | []]. reflexivity.
Defined.

Lemma getSingleUser_no_password_witness :
  field "password" (User.toJSON (User.selectMinusPassword alice)) = None.
Proof.
  apply (UsersMore.getSingleUser_no_password [alice] forAlice
           (mkResponse 200
              (JObj [("message", JStr "User fetched successfully");
                     ("data",
                      JObj [("user",
                             User.toJSON (User.selectMinusPassword alice));
                            ("success", JBool true)])]))
           (JObj [("user", User.toJSON (User.selectMinusPassword alice));
                  ("success", JBool true)]));
    vm_compute; reflexivity.
Defined.

Lemma getSingleUser_not_found_witness :
  Users.getSingleUser [alice] forNobody = NextError (CastError "_id" "42").
Proof.
  destruct (UsersMore.getSingleUser_not_found [alice] forNobody "42")
    as (H & _); [reflexivity |].
  destruct H as (H & _); [reflexivity | exact H].
Defined.

Lemma GetById_guarded_witness :
  exists token id,
    Users.bearerToken forAlice = Some token /\ jwt_verify token = inr id.
Proof.
  destruct (UsersMore.GetById_guarded [alice] forAlice
              (mkResponse 200
                 (JObj [("message", JStr "User fetched successfully");
                        ("data",
                         JObj [("user",
                                User.toJSON (User.selectMinusPassword alice));
                               ("success", JBool true)])])))
    as (token & id & u & Ht & Hv & _);
    [vm_compute; reflexivity | reflexivity |].
  exists token, id. split; assumption.
Defined.

Lemma getUserProfile_ok_witness :
  exists stored, In stored [alice] /\ User._id stored = aliceId.
Proof.
  destruct (UsersMore.getUserProfile_ok [alice]
              (Users.set_user withToken (User.selectMinusPassword alice))
              (mkResponse 200
                 (JObj [("message", JStr "User profile fetched successfully");
                        ("data",
                         JObj [("user", User.toJSON alice);
                               ("success", JBool true)])])))
    as (attached & stored & _ & Hin & _);
    [vm_compute; reflexivity | reflexivity |].
  exists stored. split; [exact Hin |]. destruct Hin as [<- | []]. reflexivity.
Defined.

Lemma create_blank_name_witness :
  exists errors,
    User.create [] aliceId 1704067200000 (Some "   ")
      (Some "test@example.com") (Some "Password1!")
    = inl (ValidationError errors)
    /\ In ("name", "username is required") errors.
Proof.
  apply (UserMore.create_blank_name [] aliceId 1704067200000 "   ").
  reflexivity.
Defined.

Lemma issued_token_passes_guard_witness :
  exists req' attached,
    Users.authorize
      (Auth.db (Auth.signup saltPlain aliceId 1704067200000 scenarioA []))
      withToken = Next req'
    /\ Users.user req' = Some attached
    /\ User._id attached = aliceId
    /\ User.email attached = Some "test@example.com"
    /\ User.password attached = None.
Proof.
  destruct (Journeys.issued_token_passes_guard saltPlain aliceId 1704067200000
              scenarioA []
              (mkResponse 201
                 (JObj [("message", JStr "User created successfully");
                        ("user", User.toJSON alice);
                        ("token", JStr "jwt.64f8a1b2c3d4e5f6a7b8c9d0");
                        ("success", JBool true)]))
              "password123" "jwt.64f8a1b2c3d4e5f6a7b8c9d0" withToken)
    as (req' & attached & Hr & Hu & Hid & _ & He & Hp & _).
  - vm_compute; reflexivity.
  - vm_compute; reflexivity.
  - reflexivity.
  - reflexivity.
  - reflexivity.
  - discriminate.
  - intros c Hc. cbn in Hc.
    repeat (destruct Hc as [<- | Hc]; [discriminate |]). destruct Hc.
  - vm_compute; reflexivity.
  - vm_compute; reflexivity.
  - intros u [].
  - reflexivity.
  - exists req', attached. repeat split; assumption.
Defined.

End Scenarios2.
